(** * The typed request/response pipeline of idollyApp

    A shallow embedding of the two request layers of the repository:

    - the plain design: a class [API] with a process-wide configuration,
      URL composition ([getUrl]), configuration injection
      ([addGlobalConfig]) and envelope unwrapping ([responseHandler]);
    - the schema-validated design: [getRequest], [postRequest],
      [putRequest], [patchRequest] and [deleteRequest], which validate
      payloads with [createSchemaValidator].

    JavaScript values are an inductive type, objects are finite maps from
    property names to values, thrown values are an error type, and the
    console and the network are fields of an explicit world that every
    effectful function threads through. *)

From Stdlib Require Import ZArith Ascii.
From stdpp Require Import gmap strings list fin_maps pretty.

Set Warnings "-register-all".
Local Open Scope string_scope.
Local Open Scope Z_scope.

(** ** JavaScript values *)

(** Numbers are restricted to the integers, which is what envelope codes
    are; a function is an opaque reference identified by its name. *)
Inductive value :=
| VUndefined
| VNull
| VBool (b : bool)
| VNum (n : Z)
| VStr (s : string)
| VArr (l : list value)
| VObj (o : gmap string value)
| VFun (name : string).

(** [typeof v] *)
Definition typeof (v : value) : string :=
  match v with
  | VUndefined => "undefined"
  | VNull | VArr _ | VObj _ => "object"
  | VBool _ => "boolean"
  | VNum _ => "number"
  | VStr _ => "string"
  | VFun _ => "function"
  end.

(** [a === b], for the comparisons the sources make: one side is always a
    primitive literal.  Two objects, arrays or functions are equal only when
    they are the same reference, which this model does not track, so the
    comparison of two of them is left [false]. *)
Definition strict_equals (a b : value) : bool :=
  match a, b with
  | VUndefined, VUndefined => true
  | VNull, VNull => true
  | VBool x, VBool y => bool_decide (x = y)
  | VNum x, VNum y => bool_decide (x = y)
  | VStr x, VStr y => bool_decide (x = y)
  | _, _ => false
  end.

(** Truthiness, as used by [||], [&&] and [!!]. *)
Definition truthy (v : value) : bool :=
  match v with
  | VUndefined | VNull => false
  | VBool b => b
  | VNum n => negb (bool_decide (n = 0))
  | VStr s => negb (bool_decide (s = ""))
  | VArr _ | VObj _ | VFun _ => true
  end.

(** [a ?? b] *)
Definition nullish_coalesce (a b : value) : value :=
  match a with
  | VUndefined | VNull => b
  | _ => a
  end.

(** [a || b] *)
Definition logical_or (a b : value) : value :=
  if truthy a then a else b.

(** The property [k] of an object map; a missing property reads as
    [undefined]. *)
Definition prop (o : gmap string value) (k : string) : value :=
  default VUndefined (o !! k).

(** The own enumerable properties that an object spread [{...v}] copies:
    those of an object, the indexed elements of an array, the indexed
    characters of a string, and nothing for any other value. *)
Fixpoint indexed {A} (f : A → value) (i : nat) (l : list A) : gmap string value :=
  match l with
  | [] => ∅
  | x :: l' => <[pretty i := f x]> (indexed f (S i) l')
  end.

Definition own_props (v : value) : gmap string value :=
  match v with
  | VObj o => o
  | VArr l => indexed id 0 l
  | VStr s => indexed (λ c, VStr (String c "")) 0 (String.list_ascii_of_string s)
  | _ => ∅
  end.

(** [{...a, ...b}]: the properties of [b] win. *)
Definition spread (a b : gmap string value) : gmap string value := b ∪ a.

(** ** Thrown values *)

(** An issue of a failed schema validation. *)
Record ZodIssue := { path : list string; message : string }.

(** What the code can throw or reject with: the object [{code, message}]
    thrown by the envelope unwrapper, a [ZodError] carrying its issues, a
    rejection of the transport, and the two built-in errors that property
    access on [null]/[undefined] and [JSON.parse] raise. *)
Inductive error :=
| ProtocolError (code message : value)
| ValidationError (issues : list ZodIssue)
| TransportError (reason : value)
| TypeError
| SyntaxError.

Inductive result (A : Type) :=
| Ok (a : A)
| Throw (e : error).
Arguments Ok {A} a.
Arguments Throw {A} e.

(** [v.k] for a property name that no built-in prototype defines. *)
Definition get_prop (v : value) (k : string) : result value :=
  match v with
  | VUndefined | VNull => Throw TypeError
  | VObj o => Ok (prop o k)
  | _ => Ok VUndefined
  end.

(** [v?.k] *)
Definition get_prop_opt (v : value) (k : string) : value :=
  match v with
  | VObj o => prop o k
  | _ => VUndefined
  end.

(** ** The world: process-wide configuration, console and network *)

(** [interface ApiConfig] *)
Record ApiConfig := {
  rootPath : string;
  preProcessingCallback : option value;
  postProcessingCallback : option value;
  apiErrorHandler : option value;
  additionalHeader : option (gmap string string);
  transformRequest : option (list value);
  transformResponse : option (list value);
}.

(** A call made on an axios instance. *)
Inductive axios_call :=
| AxGet (url : string) (config : value)
| AxPost (url : string) (data : value) (config : value)
| AxPut (url : string) (data : value) (config : value)
| AxDelete (url : string) (config : value)
| AxRequest (config : gmap string value).

(** [AxiosResponse]: only the body is ever read. *)
Record AxiosResponse := { data : value }.

Definition response_data (response : AxiosResponse) : value := data response.

(** An axios instance, seen from outside: given the calls made so far and a
    new call, it resolves with a response or rejects. *)
Definition Transport := list axios_call → axios_call → result AxiosResponse.

Record World := {
  api_config : ApiConfig;
  console : list (list value);
  network : list axios_call;
}.

(** Effectful code: the state of the world is threaded through, and a throw
    (or a rejected promise) skips the rest of the computation. *)
Definition M (A : Type) := World → result A * World.

Definition ret {A} (a : A) : M A := λ w, (Ok a, w).
Definition throw {A} (e : error) : M A := λ w, (Throw e, w).
Definition bind {A B} (m : M A) (k : A → M B) : M B :=
  λ w, match m w with
       | (Ok a, w') => k a w'
       | (Throw e, w') => (Throw e, w')
       end.
Definition lift {A} (r : result A) : M A := λ w, (r, w).

Notation "'let!' x ':=' m 'in' k" := (bind m (λ x, k))
  (at level 10, x name, m at level 100, k at level 200).
Notation "'run!' m 'in' k" := (bind m (λ _, k))
  (at level 10, m at level 100, k at level 200).

(** [console.error(a, b)] *)
Definition console_error (args : list value) : M unit :=
  λ w, (Ok tt, {| api_config := api_config w;
                  console := console w ++ [args];
                  network := network w |}).

(** A call on the axios instance [ax]: it is recorded, then resolves or
    rejects as the instance decides. *)
Definition axios_do (ax : Transport) (c : axios_call) : M AxiosResponse :=
  λ w, (ax (network w) c,
        {| api_config := api_config w;
           console := console w;
           network := network w ++ [c] |}).

(** [API.configure(config)] *)
Definition configure (c : ApiConfig) : M unit :=
  λ w, (Ok tt, {| api_config := c; console := console w; network := network w |}).

(** ** [JSON.parse]

    The built-in parser of the platform, on byte strings: white space, the
    three literals, integers, strings with their escapes, arrays and
    objects (a repeated key keeps its last value).  Number literals with a
    fraction or an exponent, and [\u] escapes above [00ff], have no
    counterpart in [value] and are outside the modelled fragment. *)

Module Json.

Definition is_ws (c : ascii) : bool :=
  bool_decide (c = " "%char) || bool_decide (c = "009"%char)
  || bool_decide (c = "010"%char) || bool_decide (c = "013"%char).

Fixpoint skip_ws (s : string) : string :=
  match s with
  | String c r => if is_ws c then skip_ws r else s
  | EmptyString => s
  end.

Definition digit_of (c : ascii) : option Z :=
  let n := Z.of_nat (nat_of_ascii c) in
  if bool_decide (48 ≤ n ≤ 57) then Some (n - 48) else None.

Definition hex_of (c : ascii) : option Z :=
  let n := Z.of_nat (nat_of_ascii c) in
  if bool_decide (48 ≤ n ≤ 57) then Some (n - 48)
  else if bool_decide (65 ≤ n ≤ 70) then Some (n - 55)
  else if bool_decide (97 ≤ n ≤ 102) then Some (n - 87)
  else None.

Fixpoint parse_digits (acc : Z) (s : string) : Z * string :=
  match s with
  | String c r =>
      match digit_of c with
      | Some d => parse_digits (10 * acc + d) r
      | None => (acc, s)
      end
  | EmptyString => (acc, s)
  end.

(** [0] or a digit sequence without a leading zero. *)
Definition parse_nat (s : string) : option (Z * string) :=
  match s with
  | String c r =>
      match digit_of c with
      | Some 0 => Some (0, r)
      | Some d => Some (parse_digits d r)
      | None => None
      end
  | EmptyString => None
  end.

Definition starts_fraction (s : string) : bool :=
  match s with
  | String c _ =>
      bool_decide (c = "."%char) || bool_decide (c = "e"%char) || bool_decide (c = "E"%char)
  | EmptyString => false
  end.

Definition parse_number (s : string) : option (Z * string) :=
  '(n, r) ← match s with
            | String "-" r => '(n, r') ← parse_nat r; Some (- n, r')
            | _ => parse_nat s
            end;
  if starts_fraction r then None else Some (n, r).

Definition escape_of (c : ascii) : option ascii :=
  if bool_decide (c = "034"%char) then Some "034"%char
  else if bool_decide (c = "\"%char) then Some "\"%char
  else if bool_decide (c = "/"%char) then Some "/"%char
  else if bool_decide (c = "b"%char) then Some "008"%char
  else if bool_decide (c = "f"%char) then Some "012"%char
  else if bool_decide (c = "n"%char) then Some "010"%char
  else if bool_decide (c = "r"%char) then Some "013"%char
  else if bool_decide (c = "t"%char) then Some "009"%char
  else None.

Definition unicode_of (a b c d : ascii) : option ascii :=
  x3 ← hex_of a; x2 ← hex_of b; x1 ← hex_of c; x0 ← hex_of d;
  if bool_decide (x3 = 0 ∧ x2 = 0) then Some (ascii_of_nat (Z.to_nat (16 * x1 + x0)))
  else None.

(** The characters of a string literal after its opening quote, up to and
    including the closing quote. *)
Fixpoint parse_chars (s : string) : option (string * string) :=
  match s with
  | EmptyString => None
  | String c r =>
      if bool_decide (c = "034"%char) then Some ("", r)
      else if bool_decide (c = "\"%char) then
        match r with
        | String "u" (String h3 (String h2 (String h1 (String h0 r')))) =>
            e ← unicode_of h3 h2 h1 h0;
            '(str, rest) ← parse_chars r';
            Some (String e str, rest)
        | String e r' =>
            e' ← escape_of e;
            '(str, rest) ← parse_chars r';
            Some (String e' str, rest)
        | EmptyString => None
        end
      else if bool_decide (Z.of_nat (nat_of_ascii c) < 32) then None
      else '(str, rest) ← parse_chars r; Some (String c str, rest)
  end.

Definition strip_prefix (p s : string) : option string :=
  if String.prefix p s
  then Some (String.substring (String.length p) (String.length s - String.length p) s)
  else None.

Definition parse_literal (s : string) : option (value * string) :=
  match strip_prefix "null" s, strip_prefix "true" s, strip_prefix "false" s with
  | Some r, _, _ => Some (VNull, r)
  | _, Some r, _ => Some (VBool true, r)
  | _, _, Some r => Some (VBool false, r)
  | _, _, _ => None
  end.

Fixpoint parse_value (fuel : nat) (s : string) : option (value * string) :=
  match fuel with
  | O => None
  | S fuel =>
      match skip_ws s with
      | EmptyString => None
      | String c r as s' =>
          if bool_decide (c = "034"%char) then
            '(str, rest) ← parse_chars r; Some (VStr str, rest)
          else if bool_decide (c = "["%char) then
            match skip_ws r with
            | String "]" rest => Some (VArr [], rest)
            | r' => '(l, rest) ← parse_elements fuel r'; Some (VArr l, rest)
            end
          else if bool_decide (c = "{"%char) then
            match skip_ws r with
            | String "}" rest => Some (VObj ∅, rest)
            | r' => '(o, rest) ← parse_members fuel ∅ r'; Some (VObj o, rest)
            end
          else if bool_decide (c = "-"%char) || bool_decide (is_Some (digit_of c)) then
            '(n, rest) ← parse_number s'; Some (VNum n, rest)
          else parse_literal s'
      end
  end
with parse_elements (fuel : nat) (s : string) : option (list value * string) :=
  match fuel with
  | O => None
  | S fuel =>
      '(v, r) ← parse_value fuel s;
      match skip_ws r with
      | String "," r' => '(l, rest) ← parse_elements fuel r'; Some (v :: l, rest)
      | String "]" rest => Some ([v], rest)
      | _ => None
      end
  end
with parse_members (fuel : nat) (acc : gmap string value) (s : string)
    : option (gmap string value * string) :=
  match fuel with
  | O => None
  | S fuel =>
      match skip_ws s with
      | String "034" r =>
          '(k, r1) ← parse_chars r;
          match skip_ws r1 with
          | String ":" r2 =>
              '(v, r3) ← parse_value fuel r2;
              match skip_ws r3 with
              | String "," r4 => parse_members fuel (<[k := v]> acc) r4
              | String "}" rest => Some (<[k := v]> acc, rest)
              | _ => None
              end
          | _ => None
          end
      | _ => None
      end
  end.

(** [JSON.parse(text)]: one value, then only white space.  Every second
    step of the recursion consumes a character, so the fuel is ample. *)
Definition parse (text : string) : result value :=
  match parse_value (2 * String.length text + 2) text with
  | Some (v, rest) =>
      match skip_ws rest with
      | EmptyString => Ok v
      | _ => Throw SyntaxError
      end
  | None => Throw SyntaxError
  end.

End Json.

(** ** The plain design *)

Module PlainApi.

(** [responseHandler] *)
Definition responseHandler (res : value) : M value :=
  let! code := lift (get_prop res "code") in
  if strict_equals code (VNum 500) then
    let! message := lift (get_prop res "message") in
    run! console_error [code; message] in
    throw (ProtocolError code message)
  else if negb (strict_equals code VUndefined) && negb (strict_equals code (VNum 200)) then
    let! message := lift (get_prop res "message") in
    throw (ProtocolError code message)
  else
    let! data := lift (get_prop res "data") in
    ret (nullish_coalesce data (VBool true)).

(** [plainResponseTransformer]: [typeof data === "string"] holds exactly
    for the string values. *)
Definition plainResponseTransformer (data : value) : result value :=
  match data with
  | VStr text => Json.parse text
  | _ => Ok data
  end.

(** [s.charAt(i)] *)
Definition charAt (s : string) (i : nat) : string :=
  match String.get i s with
  | Some c => String c ""
  | None => ""
  end.

(** [API.getUrl] *)
Definition getUrl (c : ApiConfig) (apiPath : string) : string :=
  rootPath c +:+ (if bool_decide (charAt apiPath 0 = "/") then apiPath else "/" +:+ apiPath).

(** [list && list.length > 0] *)
Definition present_non_empty (list : option (list value)) : bool :=
  match list with
  | Some l => bool_decide (0 < length l)%nat
  | None => false
  end.

(** [API.addGlobalConfig] *)
Definition addGlobalConfig (c : ApiConfig) (config : value) : gmap string value :=
  let transformers :=
    spread
      (if present_non_empty (transformRequest c)
       then {["transformRequest" := VArr (default [] (transformRequest c))]} else ∅)
      (if present_non_empty (transformResponse c)
       then {["transformResponse" := VArr (default [] (transformResponse c))]} else ∅) in
  let headers :=
    <["X-ENCRYPTED" := VStr (if present_non_empty (transformRequest c) then "yes" else "no")]>
      (own_props (logical_or (get_prop_opt config "headers") (VObj ∅))) in
  <["withCredentials" := VBool true]>
    (<["headers" := VObj headers]> (spread transformers (own_props config))).

(** The configuration object that [API.postTransformed] hands to axios. *)
Definition postTransformed_config (transformRequest transformResponse config : value)
    : gmap string value :=
  let conf :=
    <["transformResponse" :=
        VArr [nullish_coalesce transformResponse (VFun "plainResponseTransformer")]]>
      (<["transformRequest" :=
           VArr [nullish_coalesce transformRequest (VFun "plainRequestTransformer")]]>
         (<["headers" :=
              VObj (<["X-ENCRYPTED" := VStr "yes"]> (own_props (get_prop_opt config "headers")))]>
            (own_props config))) in
  <["withCredentials" := VBool true]> conf.

Definition read_config : M ApiConfig := λ w, (Ok (api_config w), w).

Section Methods.

(** [API.instance.axiosInstance].  The hooks that its interceptors run are
    modelled apart, in [Interceptors]; a call here has the effects of the
    instance when no hook is configured. *)
Variable axiosInstance : Transport.

(** [API.get] *)
Definition get (apiPath : string) (config : value) : M value :=
  let! c := read_config in
  let! response := axios_do axiosInstance (AxGet (getUrl c apiPath) (VObj (addGlobalConfig c config))) in
  responseHandler (response_data response).

(** [API.post] *)
Definition post (apiPath : string) (data : value) (config : value) : M value :=
  let! c := read_config in
  let! response :=
    axios_do axiosInstance (AxPost (getUrl c apiPath) data (VObj (addGlobalConfig c config))) in
  responseHandler (response_data response).

(** [API.postRaw] *)
Definition postRaw (apiPath : string) (data : value) (config : value) : M AxiosResponse :=
  let! c := read_config in
  axios_do axiosInstance (AxPost (getUrl c apiPath) data (VObj (addGlobalConfig c config))).

(** [API.postTransformed] *)
Definition postTransformed (apiPath : string) (data transformRequest transformResponse config : value)
    : M AxiosResponse :=
  let! c := read_config in
  axios_do axiosInstance
    (AxPost (getUrl c apiPath) data
       (VObj (postTransformed_config transformRequest transformResponse config))).

(** [API.patch] *)
Definition patch (apiPath : string) (data : value) (config : value) : M value :=
  let! c := read_config in
  let! response :=
    axios_do axiosInstance (AxPost (getUrl c apiPath) data (VObj (addGlobalConfig c config))) in
  responseHandler (response_data response).

(** [API.put] *)
Definition put (apiPath : string) (data : value) (config : value) : M value :=
  let! c := read_config in
  let! response :=
    axios_do axiosInstance (AxPut (getUrl c apiPath) data (VObj (addGlobalConfig c config))) in
  responseHandler (response_data response).

(** [API.delete] *)
Definition delete (apiPath : string) (config : value) : M value :=
  let! c := read_config in
  let! response :=
    axios_do axiosInstance (AxDelete (getUrl c apiPath) (VObj (addGlobalConfig c config))) in
  responseHandler (response_data response).

End Methods.

End PlainApi.

(** ** The schema-validated design *)

Module ValidatedApi.

(** What [schema.safeParse] returns. *)
Inductive SafeParseReturnType :=
| SafeParseSuccess (data : value)
| SafeParseError (issues : list ZodIssue).

(** [ZodType<T>]: a schema of the validation library, through the one
    method the code calls. *)
Record ZodType := { safeParse : value → SafeParseReturnType }.

(** [createSchemaValidator] *)
Definition createSchemaValidator (schema : ZodType) (data : value) : result value :=
  match safeParse schema data with
  | SafeParseSuccess parsed => Ok parsed
  | SafeParseError issues => Throw (ValidationError issues)
  end.

(** The argument of [getRequest] and [deleteRequest]: an axios request
    configuration together with the bound response schema. *)
Record ReadConfig := {
  read_axios : gmap string value;
  read_ResponseDataSchema : ZodType;
}.

(** The argument of [postRequest], [putRequest] and [patchRequest]. *)
Record WriteConfig := {
  write_axios : gmap string value;
  ResponseDataSchema : ZodType;
  RequestPayloadSchema : ZodType;
}.

(** [extendedConfig] of the read operations. *)
Definition read_extendedConfig (method : string) (config : ReadConfig) : gmap string value :=
  let newConfig := <["ResponseDataSchema" := VUndefined]> (read_axios config) in
  <["method" := VStr method]> newConfig.

(** [extendedConfig] of the write operations. *)
Definition write_extendedConfig (method : string) (config : WriteConfig) (validatedData : value)
    : gmap string value :=
  let newConfig :=
    <["RequestPayloadSchema" := VUndefined]>
      (<["ResponseDataSchema" := VUndefined]> (write_axios config)) in
  <["method" := VStr method]> (<["data" := validatedData]> newConfig).

Section Requests.

(** The module's [axiosInstance]; its interceptors pass everything through. *)
Variable axiosInstance : Transport.

(** [getRequest] *)
Definition getRequest (config : ReadConfig) : M value :=
  let! response := axios_do axiosInstance (AxRequest (read_extendedConfig "get" config)) in
  lift (createSchemaValidator (read_ResponseDataSchema config) (response_data response)).

(** [postRequest] *)
Definition postRequest (config : WriteConfig) (data : value) : M value :=
  let! validatedData := lift (createSchemaValidator (RequestPayloadSchema config) data) in
  let! response :=
    axios_do axiosInstance (AxRequest (write_extendedConfig "post" config validatedData)) in
  lift (createSchemaValidator (ResponseDataSchema config) (response_data response)).

(** [putRequest] *)
Definition putRequest (config : WriteConfig) (data : value) : M value :=
  let! validatedData := lift (createSchemaValidator (RequestPayloadSchema config) data) in
  let! response :=
    axios_do axiosInstance (AxRequest (write_extendedConfig "put" config validatedData)) in
  lift (createSchemaValidator (ResponseDataSchema config) (response_data response)).

(** [patchRequest] *)
Definition patchRequest (config : WriteConfig) (data : value) : M value :=
  let! validatedData := lift (createSchemaValidator (RequestPayloadSchema config) data) in
  let! response :=
    axios_do axiosInstance (AxRequest (write_extendedConfig "patch" config validatedData)) in
  lift (createSchemaValidator (ResponseDataSchema config) (response_data response)).

(** [deleteRequest] *)
Definition deleteRequest (config : ReadConfig) : M value :=
  let! response := axios_do axiosInstance (AxRequest (read_extendedConfig "delete" config)) in
  lift (createSchemaValidator (read_ResponseDataSchema config) (response_data response)).

End Requests.

End ValidatedApi.

(** ** Statements of the specification, and sample data *)

(** A field of the envelope is present when reading it does not give
    [undefined]; this is the test the unwrapper applies to [code]. *)
Definition present (v : value) : bool := negb (strict_equals v VUndefined).

(** The unwrapping policy in the words of the specification: a code of 500
    is logged and fails, any other present code but 200 fails, and
    otherwise the result is [data] if present and [true] if not. *)
Definition unwrap_spec (e : gmap string value) : M value :=
  let code := prop e "code" in
  let message := prop e "message" in
  if strict_equals code (VNum 500) then
    run! console_error [code; message] in throw (ProtocolError code message)
  else if present code && negb (strict_equals code (VNum 200)) then
    throw (ProtocolError code message)
  else if present (prop e "data") then ret (prop e "data")
  else ret (VBool true).

Definition default_config (root : string) : ApiConfig :=
  {| rootPath := root;
     preProcessingCallback := None;
     postProcessingCallback := None;
     apiErrorHandler := None;
     additionalHeader := None;
     transformRequest := None;
     transformResponse := None |}.

Definition fresh_world (c : ApiConfig) : World :=
  {| api_config := c; console := []; network := [] |}.

Definition svc_world : World := fresh_world (default_config "https://svc").

(** The four envelopes of the specification's examples, and one whose
    [data] is [null]. *)
Definition envelope_ok_data : gmap string value :=
  <["code" := VNum 200]> {["data" := VObj {["x" := VNum 1]}]}.
Definition envelope_ok_empty : gmap string value := {["code" := VNum 200]}.
Definition envelope_not_found : gmap string value :=
  <["code" := VNum 404]> {["message" := VStr "nf"]}.
Definition envelope_boom : gmap string value :=
  <["code" := VNum 500]> {["message" := VStr "boom"]}.
Definition envelope_null_data : gmap string value :=
  <["code" := VNum 200]> {["data" := VNull]}.

(** The resolution of a URL in the words of the specification: root and
    path joined so that exactly one slash separates them, whatever slashes
    the root ends with and the path begins with. *)
Fixpoint trim_leading_slashes (p : string) : string :=
  match p with
  | String c r => if bool_decide (c = "/"%char) then trim_leading_slashes r else p
  | EmptyString => p
  end.

Fixpoint trim_trailing_slashes (root : string) : string :=
  match root with
  | String c r =>
      let r' := trim_trailing_slashes r in
      if bool_decide (c = "/"%char) && bool_decide (r' = "") then "" else String c r'
  | EmptyString => ""
  end.

Definition starts_with_slash (p : string) : bool :=
  match p with
  | String c _ => bool_decide (c = "/"%char)
  | EmptyString => false
  end.

Definition starts_with_two_slashes (p : string) : bool :=
  match p with
  | String c r => bool_decide (c = "/"%char) && starts_with_slash r
  | EmptyString => false
  end.

Definition one_slash_join (root p : string) : string :=
  trim_trailing_slashes root +:+ "/" +:+ trim_leading_slashes p.

Fixpoint ends_with_slash (s : string) : bool :=
  match s with
  | String c EmptyString => bool_decide (c = "/"%char)
  | String _ r => ends_with_slash r
  | EmptyString => false
  end.

(** Sequencing of two fallible steps, as in [decode(decode(x))]. *)
Definition and_then {A B} (r : result A) (k : A → result B) : result B :=
  match r with
  | Ok a => k a
  | Throw e => Throw e
  end.

(** The configuration object of a call, the HTTP method it goes out with,
    and a header of it. *)
Definition call_config (c : axios_call) : value :=
  match c with
  | AxGet _ config | AxPost _ _ config | AxPut _ _ config | AxDelete _ config => config
  | AxRequest config => VObj config
  end.

Definition http_method (c : axios_call) : value :=
  match c with
  | AxGet _ _ => VStr "get"
  | AxPost _ _ _ => VStr "post"
  | AxPut _ _ _ => VStr "put"
  | AxDelete _ _ => VStr "delete"
  | AxRequest config => prop config "method"
  end.

Definition header (config : value) (name : string) : value :=
  get_prop_opt (get_prop_opt config "headers") name.


(** No hook is configured: the interceptors of the plain instance then pass
    requests, responses and failures through untouched. *)
Definition no_hooks (c : ApiConfig) : Prop :=
  preProcessingCallback c = None
  ∧ postProcessingCallback c = None
  ∧ apiErrorHandler c = None.

(** Two sample schemas, [z.any()] and [z.number()]. *)
Definition schema_any : ValidatedApi.ZodType :=
  {| ValidatedApi.safeParse := ValidatedApi.SafeParseSuccess |}.

Definition schema_number : ValidatedApi.ZodType :=
  {| ValidatedApi.safeParse d :=
       match d with
       | VNum _ => ValidatedApi.SafeParseSuccess d
       | _ => ValidatedApi.SafeParseError [{| path := []; message := "Expected number" |}]
       end |}.


(** A server that answers every call with the same body. *)
Definition server_replying (body : value) : Transport :=
  λ _ _, Ok {| data := body |}.

(** The text of a JSON string literal: the three characters quote, 1, quote. *)
Definition quoted_one : string := String "034"%char (String "1"%char (String "034"%char "")).

(** A process-wide configuration with an additional header and no transforms. *)
Definition tenant_config : ApiConfig :=
  {| rootPath := "https://svc";
     preProcessingCallback := None;
     postProcessingCallback := None;
     apiErrorHandler := None;
     additionalHeader := Some {["X-Tenant" := "acme"]};
     transformRequest := None;
     transformResponse := None |}.

(** A write configuration whose payload must be a number. *)
Definition number_write_config : ValidatedApi.WriteConfig :=
  {| ValidatedApi.write_axios := {["url" := VStr "https://svc/items"]};
     ValidatedApi.ResponseDataSchema := schema_any;
     ValidatedApi.RequestPayloadSchema := schema_number |}.

Definition any_read_config : ValidatedApi.ReadConfig :=
  {| ValidatedApi.read_axios := {["url" := VStr "https://svc/items/1"]};
     ValidatedApi.read_ResponseDataSchema := schema_any |}.

(** ** The interceptors of the plain design's instance

    The four functions that the constructor of [API] installs on its axios
    instance.  A hook of the configuration is a function reference; what
    calling one does is given by [call], which may change the world and may
    throw.  The configuration is read from [API._config] each time a hook
    is looked up. *)

Module Interceptors.

Section Hooks.

Variable call : string → list value → M value.

(** [f?.(args)] for an optional hook [f]. *)
Definition optional_call (f : option value) (args : list value) : M value :=
  match f with
  | None | Some VUndefined | Some VNull => ret VUndefined
  | Some (VFun name) => call name args
  | Some _ => throw TypeError
  end.

(** The first function given to [interceptors.request.use]. *)
Definition requestFulfilled (config : value) : M value :=
  let! c := PlainApi.read_config in
  let! extendedConfig := optional_call (preProcessingCallback c) [config] in
  ret (nullish_coalesce extendedConfig config).

(** The second function given to [interceptors.request.use]. *)
Definition requestRejected (e : error) : M value :=
  let! c := PlainApi.read_config in
  run! optional_call (preProcessingCallback c) [] in
  let! c' := PlainApi.read_config in
  run! optional_call (apiErrorHandler c') [] in
  throw e.

(** The first function given to [interceptors.response.use]. *)
Definition responseFulfilled (response : value) (rest : list value) : M value :=
  let! c := PlainApi.read_config in
  run! optional_call (postProcessingCallback c) [response; VArr rest] in
  ret response.

(** The second function given to [interceptors.response.use]. *)
Definition responseRejected (e : error) : M value :=
  let! c := PlainApi.read_config in
  run! optional_call (postProcessingCallback c) [] in
  let! c' := PlainApi.read_config in
  run! optional_call (apiErrorHandler c') [] in
  throw e.

End Hooks.

End Interceptors.

(** ** The operations by name *)

(** The unwrapping operations of the plain design. *)
Inductive plain_op := PlainGet | PlainPost | PlainPut | PlainPatch | PlainDelete.

Definition run_plain (ax : Transport) (op : plain_op) (apiPath : string) (data config : value)
    : M value :=
  match op with
  | PlainGet => PlainApi.get ax apiPath config
  | PlainPost => PlainApi.post ax apiPath data config
  | PlainPut => PlainApi.put ax apiPath data config
  | PlainPatch => PlainApi.patch ax apiPath data config
  | PlainDelete => PlainApi.delete ax apiPath config
  end.

(** The axios method that each of them calls. *)
Definition plain_call (op : plain_op) (url : string) (data config : value) : axios_call :=
  match op with
  | PlainGet => AxGet url config
  | PlainPost | PlainPatch => AxPost url data config
  | PlainPut => AxPut url data config
  | PlainDelete => AxDelete url config
  end.

(** The object [API] of the schema-validated design,
    [{get, post, put, patch, delete}], split by the shape of the argument. *)
Inductive read_op := ReadGet | ReadDelete.
Inductive write_op := WritePost | WritePut | WritePatch.

Definition read_method (op : read_op) : string :=
  match op with
  | ReadGet => "get"
  | ReadDelete => "delete"
  end.

Definition write_method (op : write_op) : string :=
  match op with
  | WritePost => "post"
  | WritePut => "put"
  | WritePatch => "patch"
  end.

Definition API_read (ax : Transport) (op : read_op) : ValidatedApi.ReadConfig → M value :=
  match op with
  | ReadGet => ValidatedApi.getRequest ax
  | ReadDelete => ValidatedApi.deleteRequest ax
  end.

Definition API_write (ax : Transport) (op : write_op)
    : ValidatedApi.WriteConfig → value → M value :=
  match op with
  | WritePost => ValidatedApi.postRequest ax
  | WritePut => ValidatedApi.putRequest ax
  | WritePatch => ValidatedApi.patchRequest ax
  end.

(** The world after one more call. *)
Definition after_call (w : World) (c : axios_call) : World :=
  {| api_config := api_config w; console := console w; network := network w ++ [c] |}.

(** ** More sample data *)

(** A server that rejects every call. *)
Definition server_rejecting (e : error) : Transport := λ _ _, Throw e.

(** Three hooks: [addAuth] returns the request configuration with a
    [token] property added, [count] writes a line to the console and
    returns nothing, and every other name throws. *)
Definition sample_hooks (name : string) (args : list value) : M value :=
  if bool_decide (name = "addAuth") then
    match args with
    | VObj o :: _ => ret (VObj (<["token" := VStr "t"]> o))
    | _ => ret VUndefined
    end
  else if bool_decide (name = "count") then
    run! console_error [VStr "hook"] in ret VUndefined
  else throw (TransportError (VStr name)).

Definition hooked_config : ApiConfig :=
  {| rootPath := "https://svc";
     preProcessingCallback := Some (VFun "addAuth");
     postProcessingCallback := Some (VFun "count");
     apiErrorHandler := Some (VFun "count");
     additionalHeader := None;
     transformRequest := Some [VFun "encrypt"];
     transformResponse := Some [] |}.

Definition hooked_world : World := fresh_world hooked_config.

(** ** The envelope unwrapper *)

Lemma strict_equals_num (v : value) (n : Z) : strict_equals v (VNum n) = true ↔ v = VNum n.
Proof.
  destruct v; simpl; try (split; [discriminate | congruence]).
  rewrite bool_decide_eq_true. split; congruence.
Qed.

Lemma strict_equals_undefined (v : value) :
  strict_equals v VUndefined = true ↔ v = VUndefined.
Proof. destruct v; simpl; split; congruence. Qed.

Lemma strict_equals_num_false (v : value) (n : Z) :
  strict_equals v (VNum n) = false ↔ v ≠ VNum n.
Proof.
  rewrite <- strict_equals_num. destruct (strict_equals v (VNum n)); split; congruence.
Qed.

Lemma strict_equals_undefined_false (v : value) :
  strict_equals v VUndefined = false ↔ v ≠ VUndefined.
Proof.
  rewrite <- strict_equals_undefined. destruct (strict_equals v VUndefined); split; congruence.
Qed.

(** The unwrapper on an object reads its three fields and nothing else. *)
Lemma responseHandler_object (e : gmap string value) (w : World) :
  PlainApi.responseHandler (VObj e) w =
    (if strict_equals (prop e "code") (VNum 500) then
       (Throw (ProtocolError (prop e "code") (prop e "message")),
        {| api_config := api_config w;
           console := console w ++ [[prop e "code"; prop e "message"]];
           network := network w |})
     else if negb (strict_equals (prop e "code") VUndefined)
             && negb (strict_equals (prop e "code") (VNum 200)) then
       (Throw (ProtocolError (prop e "code") (prop e "message")), w)
     else (Ok (nullish_coalesce (prop e "data") (VBool true)), w)).
Proof.
  unfold PlainApi.responseHandler, bind, lift, ret, throw, console_error. simpl.
  destruct (strict_equals (prop e "code") (VNum 500)); [reflexivity |].
  destruct (negb _ && negb _); reflexivity.
Qed.

(** C1 (as amended): on every envelope object, a code of 500 is logged
    (code and message, one console line) and fails with the protocol error
    [{code, message}]; any other code that is present and not 200 fails with
    the same error and logs nothing; otherwise the unwrapper returns [data]
    unless [data] is [undefined] or [null], in which case it returns
    [true]. *)
Theorem responseHandler_policy (e : gmap string value) (w : World) :
  let code := prop e "code" in
  let message := prop e "message" in
  let data := prop e "data" in
  (code = VNum 500 →
     PlainApi.responseHandler (VObj e) w =
       (Throw (ProtocolError code message),
        {| api_config := api_config w;
           console := console w ++ [[code; message]];
           network := network w |}))
  ∧ (code ≠ VNum 500 → code ≠ VUndefined → code ≠ VNum 200 →
     PlainApi.responseHandler (VObj e) w = (Throw (ProtocolError code message), w))
  ∧ (code = VUndefined ∨ code = VNum 200 → data ≠ VUndefined → data ≠ VNull →
     PlainApi.responseHandler (VObj e) w = (Ok data, w))
  ∧ (code = VUndefined ∨ code = VNum 200 → data = VUndefined ∨ data = VNull →
     PlainApi.responseHandler (VObj e) w = (Ok (VBool true), w)).
Proof.
  cbv zeta. rewrite !responseHandler_object.
  generalize (prop e "code") (prop e "message") (prop e "data").
  intros code message data. repeat split.
  - intros ->. reflexivity.
  - intros H5 Hu H2.
    apply strict_equals_num_false in H5, H2. apply strict_equals_undefined_false in Hu.
    rewrite H5, Hu, H2. reflexivity.
  - intros [-> | ->] Hu Hn; vm_compute; destruct data; congruence.
  - intros [-> | ->] [-> | ->]; reflexivity.
Qed.

(** The examples of the specification, obtained from the policy. *)
Lemma responseHandler_policy_witness :
  PlainApi.responseHandler (VObj envelope_ok_data) svc_world
    = (Ok (VObj {["x" := VNum 1]}), svc_world)
  ∧ PlainApi.responseHandler (VObj envelope_ok_empty) svc_world = (Ok (VBool true), svc_world)
  ∧ PlainApi.responseHandler (VObj envelope_not_found) svc_world
    = (Throw (ProtocolError (VNum 404) (VStr "nf")), svc_world)
  ∧ PlainApi.responseHandler (VObj envelope_boom) svc_world
    = (Throw (ProtocolError (VNum 500) (VStr "boom")),
       {| api_config := api_config svc_world;
          console := [[VNum 500; VStr "boom"]];
          network := [] |}).
Proof.
  split; [| split; [| split]].
  - apply (proj1 (proj2 (proj2 (responseHandler_policy envelope_ok_data svc_world))));
      [right; reflexivity | discriminate | discriminate].
  - apply (proj2 (proj2 (proj2 (responseHandler_policy envelope_ok_empty svc_world))));
      [right; reflexivity | left; reflexivity].
  - apply (proj1 (proj2 (responseHandler_policy envelope_not_found svc_world)));
      discriminate.
  - apply (proj1 (responseHandler_policy envelope_boom svc_world)). reflexivity.
Defined.

(** C1 (as stated) fails on an envelope whose [data] is [null]: the field is
    present, yet the unwrapper returns [true] instead of it. *)
Lemma responseHandler_null_data :
  envelope_null_data !! "data" = Some VNull
  ∧ PlainApi.responseHandler (VObj envelope_null_data) svc_world = (Ok (VBool true), svc_world)
  ∧ unwrap_spec envelope_null_data svc_world = (Ok VNull, svc_world)
  ∧ PlainApi.responseHandler (VObj envelope_null_data) svc_world
    ≠ unwrap_spec envelope_null_data svc_world.
Proof.
  repeat split; try reflexivity. intros H. vm_compute in H. discriminate H.
Qed.

(** ** URL resolution *)

Lemma trim_trailing_slashes_id (root : string) :
  ends_with_slash root = false → trim_trailing_slashes root = root.
Proof.
  induction root as [| c r IH]; [reflexivity |].
  intros H. cbn [trim_trailing_slashes].
  destruct r as [| c' r'].
  - cbn in H |- *. rewrite H. reflexivity.
  - rewrite IH by exact H.
    rewrite (bool_decide_eq_false_2 (String c' r' = "")) by discriminate.
    rewrite andb_false_r. reflexivity.
Qed.

Lemma trim_leading_slashes_id (p : string) :
  starts_with_slash p = false → trim_leading_slashes p = p.
Proof. destruct p as [| c r]; [reflexivity |]. cbn. intros ->. reflexivity. Qed.

Lemma charAt_slash (p : string) :
  bool_decide (PlainApi.charAt p 0 = "/") = starts_with_slash p.
Proof.
  destruct p as [| c r]; [reflexivity |]. cbn.
  destruct (decide (c = "/"%char)) as [-> | Hne].
  - rewrite !bool_decide_eq_true_2; reflexivity.
  - rewrite !bool_decide_eq_false_2; [reflexivity | exact Hne | congruence].
Qed.

Lemma getUrl_slash_prefixed (c : ApiConfig) (q : string) :
  PlainApi.getUrl c ("/" +:+ q) = rootPath c +:+ "/" +:+ q.
Proof. reflexivity. Qed.

Lemma getUrl_bare (c : ApiConfig) (q : string) :
  starts_with_slash q = false → PlainApi.getUrl c q = rootPath c +:+ "/" +:+ q.
Proof. intros H. unfold PlainApi.getUrl. rewrite charAt_slash, H. reflexivity. Qed.

Lemma getUrl_slashed (c : ApiConfig) (p : string) :
  starts_with_slash p = true → PlainApi.getUrl c p = rootPath c +:+ p.
Proof. intros H. unfold PlainApi.getUrl. rewrite charAt_slash, H. reflexivity. Qed.

Lemma length_append (s1 s2 : string) :
  String.length (s1 +:+ s2) = (String.length s1 + String.length s2)%nat.
Proof.
  induction s1 as [| a s1 IH]; [reflexivity |].
  change (S (String.length (s1 +:+ s2)) = S (String.length s1 + String.length s2)).
  rewrite IH. reflexivity.
Qed.

Lemma length_trim_trailing (s : string) :
  (String.length (trim_trailing_slashes s) ≤ String.length s)%nat
  ∧ (ends_with_slash s = true →
     String.length (trim_trailing_slashes s) < String.length s)%nat.
Proof.
  induction s as [| a r [IHle IHlt]]; [split; [reflexivity | discriminate] |].
  cbn [trim_trailing_slashes].
  destruct (bool_decide (a = "/"%char) && bool_decide (trim_trailing_slashes r = ""))
    eqn:E; cbn [String.length].
  - split; [lia | intros _; lia].
  - split; [lia |]. destruct r as [| b r'].
    + cbn in E |- *. intros H. rewrite H in E. discriminate E.
    + intros H. cbn [ends_with_slash] in H. specialize (IHlt H). lia.
Qed.

Lemma length_trim_leading (p : string) :
  (String.length (trim_leading_slashes p) ≤ String.length p)%nat.
Proof.
  induction p as [| a r IH]; [reflexivity |]. cbn [trim_leading_slashes].
  destruct (bool_decide (a = "/"%char)); cbn [String.length]; lia.
Qed.

(** C4 (as amended): the resolved URL is the root followed by the path when
    the path begins with a slash, and the root, one slash and the path
    otherwise, so a path that does not begin with a slash gives the same URL
    with or without a leading slash added; that URL is root and path with
    exactly one slash between them precisely when the root does not end
    with a slash and the path does not begin with two. *)
Theorem getUrl_one_slash (c : ApiConfig) (p : string) :
  (starts_with_slash p = true → PlainApi.getUrl c p = rootPath c +:+ p)
  ∧ (starts_with_slash p = false →
     PlainApi.getUrl c p = rootPath c +:+ "/" +:+ p
     ∧ PlainApi.getUrl c ("/" +:+ p) = PlainApi.getUrl c p)
  ∧ (PlainApi.getUrl c p = one_slash_join (rootPath c) p
     ↔ ends_with_slash (rootPath c) = false ∧ starts_with_two_slashes p = false).
Proof.
  split; [apply getUrl_slashed | split].
  - intros H. rewrite getUrl_slash_prefixed, (getUrl_bare _ _ H). split; reflexivity.
  - split.
    + intros Heq. apply (f_equal String.length) in Heq. unfold one_slash_join in Heq.
      rewrite !length_append in Heq. cbn [String.length] in Heq.
      destruct (length_trim_trailing (rootPath c)) as [Hle Hlt].
      pose proof (length_trim_leading p) as Hp.
      destruct (starts_with_slash p) eqn:Hs.
      * rewrite (getUrl_slashed _ _ Hs), length_append in Heq.
        destruct p as [| a r]; [discriminate |].
        cbn in Hs. apply bool_decide_eq_true_1 in Hs as ->.
        cbn [trim_leading_slashes String.length] in Heq, Hp.
        rewrite bool_decide_eq_true_2 in Heq, Hp by reflexivity.
        pose proof (length_trim_leading r) as Hr.
        assert (String.length (trim_trailing_slashes (rootPath c))
                = String.length (rootPath c)
                ∧ String.length (trim_leading_slashes r) = String.length r) as [Hroot Hrest]
          by lia.
        split.
        -- destruct (ends_with_slash (rootPath c)); [specialize (Hlt eq_refl); lia | reflexivity].
        -- cbn [starts_with_two_slashes]. rewrite bool_decide_eq_true_2 by reflexivity.
           cbn [andb]. destruct r as [| b r']; [reflexivity |].
           cbn [starts_with_slash]. destruct (bool_decide (b = "/"%char)) eqn:Hb; [| reflexivity].
           exfalso. apply bool_decide_eq_true_1 in Hb as ->.
           cbn [trim_leading_slashes String.length] in Hrest.
           rewrite bool_decide_eq_true_2 in Hrest by reflexivity.
           pose proof (length_trim_leading r'). lia.
      * rewrite (getUrl_bare _ _ Hs), !length_append in Heq. cbn [String.length] in Heq.
        split.
        -- destruct (ends_with_slash (rootPath c)); [specialize (Hlt eq_refl); lia | reflexivity].
        -- destruct p as [| a r]; [reflexivity |]. cbn in Hs |- *. rewrite Hs. reflexivity.
    + intros [Hroot Hp]. unfold one_slash_join.
      rewrite (trim_trailing_slashes_id _ Hroot).
      destruct (starts_with_slash p) eqn:Hs.
      * destruct p as [| a r]; [discriminate |].
        cbn in Hs. apply bool_decide_eq_true_1 in Hs as ->.
        cbn in Hp. cbn [trim_leading_slashes].
        rewrite bool_decide_eq_true_2 by reflexivity.
        rewrite (trim_leading_slashes_id _ Hp). reflexivity.
      * rewrite (trim_leading_slashes_id _ Hs). apply getUrl_bare, Hs.
Qed.

(** The example of the specification: both spellings of the path give
    ["https://api.x/a"], which is root and path with one slash between. *)
Lemma getUrl_one_slash_witness :
  PlainApi.getUrl (default_config "https://api.x") "/a" = "https://api.x/a"
  ∧ PlainApi.getUrl (default_config "https://api.x") "a" = "https://api.x/a"
  ∧ PlainApi.getUrl (default_config "https://api.x") "/a"
    = one_slash_join "https://api.x" "/a".
Proof.
  split; [| split].
  - apply (proj1 (getUrl_one_slash (default_config "https://api.x") "/a") eq_refl).
  - apply (proj1 (proj1 (proj2 (getUrl_one_slash (default_config "https://api.x") "a"))
                    eq_refl)).
  - apply (proj2 (proj2 (proj2 (getUrl_one_slash (default_config "https://api.x") "/a")))).
    split; reflexivity.
Defined.

(** C4 (as stated) fails for a root that ends with a slash: two slashes
    separate root and path. *)
Lemma getUrl_trailing_slash_root :
  PlainApi.getUrl (default_config "https://api.x/") "a" = "https://api.x//a"
  ∧ one_slash_join "https://api.x/" "a" = "https://api.x/a"
  ∧ PlainApi.getUrl (default_config "https://api.x/") "a"
    ≠ one_slash_join (rootPath (default_config "https://api.x/")) "a".
Proof.
  split; [reflexivity | split; [reflexivity |]]. intros H. vm_compute in H. discriminate H.
Qed.

(** ** Configuration injection *)

Lemma present_non_empty_spec (list : option (list value)) :
  PlainApi.present_non_empty list = true ↔ ∃ l, list = Some l ∧ l ≠ [].
Proof.
  destruct list as [[| x l] |]; cbn; split; try discriminate.
  - intros (l & [= <-] & H). congruence.
  - intros _. exists (x :: l). split; [reflexivity | discriminate].
  - intros _. apply bool_decide_eq_true_2. lia.
  - intros (l & H & _). discriminate H.
Qed.

Lemma addGlobalConfig_headers (c : ApiConfig) (config : value) :
  PlainApi.addGlobalConfig c config !! "headers" =
    Some (VObj (<["X-ENCRYPTED" :=
                   VStr (if PlainApi.present_non_empty (transformRequest c) then "yes" else "no")]>
                 (own_props (logical_or (get_prop_opt config "headers") (VObj ∅))))).
Proof.
  unfold PlainApi.addGlobalConfig.
  rewrite lookup_insert_ne by discriminate. apply lookup_insert_eq.
Qed.

Lemma addGlobalConfig_marker (c : ApiConfig) (config : value) :
  header (VObj (PlainApi.addGlobalConfig c config)) "X-ENCRYPTED" =
    VStr (if PlainApi.present_non_empty (transformRequest c) then "yes" else "no").
Proof.
  unfold header. cbn [get_prop_opt]. unfold prop.
  rewrite addGlobalConfig_headers. cbn [default from_option id get_prop_opt]. unfold prop.
  rewrite lookup_insert_eq. reflexivity.
Qed.

Lemma postTransformed_config_marker (tr tresp config : value) :
  header (VObj (PlainApi.postTransformed_config tr tresp config)) "X-ENCRYPTED" = VStr "yes".
Proof.
  unfold header, PlainApi.postTransformed_config. cbn [get_prop_opt]. unfold prop.
  rewrite !lookup_insert_ne by discriminate. rewrite lookup_insert_eq.
  cbn [default from_option id get_prop_opt]. unfold prop. rewrite lookup_insert_eq. reflexivity.
Qed.

(** The single call that [API.postTransformed] makes. *)
Lemma postTransformed_call (ax : Transport) (apiPath : string)
    (data tr tresp config : value) (w : World) :
  network (PlainApi.postTransformed ax apiPath data tr tresp config w).2 =
    (network w ++ [AxPost (PlainApi.getUrl (api_config w) apiPath) data
                     (VObj (PlainApi.postTransformed_config tr tresp config))])%list.
Proof. reflexivity. Qed.

(** C2: the headers resolved by [addGlobalConfig] carry [X-ENCRYPTED: "yes"]
    exactly when the process-wide request-transform list is present and
    non-empty, and [X-ENCRYPTED: "no"] otherwise, whatever the per-call
    configuration holds; the call made by [postTransformed] always carries
    [X-ENCRYPTED: "yes"], whatever the process-wide configuration is. *)
Theorem x_encrypted_marker (c : ApiConfig) (config : value) :
  (header (VObj (PlainApi.addGlobalConfig c config)) "X-ENCRYPTED" = VStr "yes"
     ↔ ∃ l, transformRequest c = Some l ∧ l ≠ [])
  ∧ (header (VObj (PlainApi.addGlobalConfig c config)) "X-ENCRYPTED" = VStr "no"
     ↔ ¬ ∃ l, transformRequest c = Some l ∧ l ≠ [])
  ∧ ∀ (ax : Transport) (apiPath : string) (data tr tresp : value) (w : World),
      ∃ call,
        network (PlainApi.postTransformed ax apiPath data tr tresp config w).2
          = (network w ++ [call])%list
        ∧ header (call_config call) "X-ENCRYPTED" = VStr "yes".
Proof.
  rewrite addGlobalConfig_marker, <- present_non_empty_spec.
  split; [| split].
  - destruct (PlainApi.present_non_empty (transformRequest c)); split; congruence.
  - destruct (PlainApi.present_non_empty (transformRequest c)); split;
      try congruence; try discriminate.
  - intros ax apiPath data tr tresp w. eexists. split; [apply postTransformed_call |].
    apply postTransformed_config_marker.
Qed.

(** With an encrypting transform configured the marker is "yes", even
    against a caller's own [X-ENCRYPTED] header. *)
Lemma x_encrypted_marker_witness :
  header (VObj (PlainApi.addGlobalConfig
                  {| rootPath := "https://svc";
                     preProcessingCallback := None;
                     postProcessingCallback := None;
                     apiErrorHandler := None;
                     additionalHeader := None;
                     transformRequest := Some [VFun "encrypt"];
                     transformResponse := None |}
                  (VObj {["headers" := VObj {["X-ENCRYPTED" := VStr "no"]}]})))
    "X-ENCRYPTED" = VStr "yes".
Proof.
  apply (proj1 (x_encrypted_marker _ _)).
  exists [VFun "encrypt"]. split; [reflexivity | discriminate].
Defined.

(** C9: the configuration resolved by [addGlobalConfig] has
    [withCredentials] set to [true] for every per-call configuration, also
    one that sets it to [false], and so has the configuration of the call
    made by [postTransformed]. *)
Theorem withCredentials_forced (c : ApiConfig) (config : value) :
  PlainApi.addGlobalConfig c config !! "withCredentials" = Some (VBool true)
  ∧ ∀ (ax : Transport) (apiPath : string) (data tr tresp : value) (w : World),
      ∃ url final,
        network (PlainApi.postTransformed ax apiPath data tr tresp config w).2
          = (network w ++ [AxPost url data (VObj final)])%list
        ∧ final !! "withCredentials" = Some (VBool true).
Proof.
  split.
  - apply lookup_insert_eq.
  - intros ax apiPath data tr tresp w. eexists _, _.
    split; [apply postTransformed_call | apply lookup_insert_eq].
Qed.

(** A caller that asks for no credentials still gets them. *)
Example withCredentials_override :
  PlainApi.addGlobalConfig (default_config "https://svc")
    (VObj {["withCredentials" := VBool false]}) !! "withCredentials" = Some (VBool true)
  ∧ PlainApi.postTransformed_config VUndefined VUndefined
      (VObj {["withCredentials" := VBool false]}) !! "withCredentials" = Some (VBool true).
Proof. split; reflexivity. Qed.

(** [addGlobalConfig] never reads the process-wide additional headers. *)
Lemma addGlobalConfig_ignores_additionalHeader (c : ApiConfig) (extra : option (gmap string string))
    (config : value) :
  PlainApi.addGlobalConfig
    {| rootPath := rootPath c;
       preProcessingCallback := preProcessingCallback c;
       postProcessingCallback := postProcessingCallback c;
       apiErrorHandler := apiErrorHandler c;
       additionalHeader := extra;
       transformRequest := transformRequest c;
       transformResponse := transformResponse c |} config
  = PlainApi.addGlobalConfig c config.
Proof. reflexivity. Qed.

(** C5 fails on the code: with [additionalHeader = {"X-Tenant": "acme"}]
    configured and no per-call configuration, the resolved headers are
    [{"X-ENCRYPTED": "no"}] alone, and the configured header is missing. *)
Theorem additionalHeader_dropped :
  additionalHeader tenant_config = Some {["X-Tenant" := "acme"]}
  ∧ PlainApi.addGlobalConfig tenant_config VUndefined !! "headers"
    = Some (VObj {["X-ENCRYPTED" := VStr "no"]})
  ∧ header (VObj (PlainApi.addGlobalConfig tenant_config VUndefined)) "X-Tenant" = VUndefined.
Proof. repeat split; reflexivity. Qed.

(** ** The default response decode *)

(** C8 (as amended): the default decode parses its payload exactly when the
    payload is a string and returns every other payload unchanged; decoding
    twice is the same as decoding once whenever the first decode does not
    produce a string. *)
Theorem plainResponseTransformer_decode (x : value) :
  (typeof x ≠ "string" → PlainApi.plainResponseTransformer x = Ok x)
  ∧ (∀ text, x = VStr text → PlainApi.plainResponseTransformer x = Json.parse text)
  ∧ ((∀ text, PlainApi.plainResponseTransformer x ≠ Ok (VStr text)) →
     and_then (PlainApi.plainResponseTransformer x) PlainApi.plainResponseTransformer
       = PlainApi.plainResponseTransformer x).
Proof.
  split; [| split].
  - destruct x; cbn; congruence.
  - intros text ->. reflexivity.
  - intros H. destruct (PlainApi.plainResponseTransformer x) as [y | e] eqn:E; [| reflexivity].
    cbn. destruct y; try reflexivity. exfalso. exact (H _ eq_refl).
Qed.

(** A JSON array arriving as text is parsed once, and decoding the parsed
    array again changes nothing. *)
Lemma plainResponseTransformer_decode_witness :
  and_then (PlainApi.plainResponseTransformer (VStr "[1, 2]")) PlainApi.plainResponseTransformer
    = PlainApi.plainResponseTransformer (VStr "[1, 2]")
  ∧ PlainApi.plainResponseTransformer (VNum 7) = Ok (VNum 7).
Proof.
  split.
  - apply (proj2 (proj2 (plainResponseTransformer_decode (VStr "[1, 2]")))).
    intros text H. vm_compute in H. discriminate H.
  - apply (proj1 (plainResponseTransformer_decode (VNum 7))). discriminate.
Defined.

(** C8 (as stated) fails on a payload that is the text of a JSON string:
    the first decode yields the string ["1"], the second parses that string
    again and yields the number [1]. *)
Lemma plainResponseTransformer_not_idempotent :
  PlainApi.plainResponseTransformer (VStr quoted_one) = Ok (VStr "1")
  ∧ and_then (PlainApi.plainResponseTransformer (VStr quoted_one))
      PlainApi.plainResponseTransformer = Ok (VNum 1)
  ∧ and_then (PlainApi.plainResponseTransformer (VStr quoted_one))
      PlainApi.plainResponseTransformer
    ≠ PlainApi.plainResponseTransformer (VStr quoted_one).
Proof.
  split; [reflexivity | split; [reflexivity |]]. intros H. vm_compute in H. discriminate H.
Qed.

(** ** Schema validation *)

Lemma createSchemaValidator_success (S : ValidatedApi.ZodType) (d parsed : value) :
  ValidatedApi.safeParse S d = ValidatedApi.SafeParseSuccess parsed →
  ValidatedApi.createSchemaValidator S d = Ok parsed.
Proof. intros H. unfold ValidatedApi.createSchemaValidator. rewrite H. reflexivity. Qed.

Lemma createSchemaValidator_failure (S : ValidatedApi.ZodType) (d : value) (issues : list ZodIssue) :
  ValidatedApi.safeParse S d = ValidatedApi.SafeParseError issues →
  ValidatedApi.createSchemaValidator S d = Throw (ValidationError issues).
Proof. intros H. unfold ValidatedApi.createSchemaValidator. rewrite H. reflexivity. Qed.




(** ** The schema-validated requests *)

Ltac run_request :=
  unfold ValidatedApi.getRequest, ValidatedApi.postRequest, ValidatedApi.putRequest,
    ValidatedApi.patchRequest, ValidatedApi.deleteRequest,
    bind, lift, axios_do, response_data; cbn [fst snd network].

(** A write whose payload the request schema rejects stops before the
    transport is touched. *)
Lemma write_rejected (k : value → M value) (S : ValidatedApi.ZodType) (d : value)
    (issues : list ZodIssue) (w : World) :
  ValidatedApi.safeParse S d = ValidatedApi.SafeParseError issues →
  bind (lift (ValidatedApi.createSchemaValidator S d)) k w = (Throw (ValidationError issues), w).
Proof.
  intros H. unfold bind, lift. rewrite (createSchemaValidator_failure _ _ _ H). reflexivity.
Qed.

(** C6: when the request payload fails the bound request schema, [post],
    [put] and [patch] of the schema-validated design fail with the
    validation error of that schema and leave the world, and with it the
    list of transport calls, as it was. *)
Theorem invalid_payload_never_sent (ax : Transport) (config : ValidatedApi.WriteConfig)
    (data : value) (issues : list ZodIssue) (w : World) :
  ValidatedApi.safeParse (ValidatedApi.RequestPayloadSchema config) data
    = ValidatedApi.SafeParseError issues →
  ValidatedApi.postRequest ax config data w = (Throw (ValidationError issues), w)
  ∧ ValidatedApi.putRequest ax config data w = (Throw (ValidationError issues), w)
  ∧ ValidatedApi.patchRequest ax config data w = (Throw (ValidationError issues), w).
Proof.
  intros H. repeat split; apply write_rejected, H.
Qed.

(** A string sent where a number is required never reaches the server. *)
Lemma invalid_payload_never_sent_witness :
  ValidatedApi.postRequest (server_replying VNull) number_write_config (VStr "x") svc_world
    = (Throw (ValidationError [{| path := []; message := "Expected number" |}]), svc_world)
  ∧ network (ValidatedApi.patchRequest (server_replying VNull) number_write_config (VStr "x")
               svc_world).2 = [].
Proof.
  pose proof (invalid_payload_never_sent (server_replying VNull) number_write_config (VStr "x")
                [{| path := []; message := "Expected number" |}] svc_world eq_refl)
    as (Hpost & _ & Hpatch).
  split; [exact Hpost | rewrite Hpatch; reflexivity].
Defined.

(** The unwrapper writes to the console at most; it makes no call. *)
Lemma responseHandler_network (res : value) (w : World) :
  network (PlainApi.responseHandler res w).2 = network w.
Proof.
  unfold PlainApi.responseHandler, bind, lift, ret, throw, console_error.
  destruct (get_prop res "code") as [code |]; [| reflexivity].
  destruct (strict_equals code (VNum 500)).
  - destruct (get_prop res "message"); reflexivity.
  - destruct (negb _ && negb _).
    + destruct (get_prop res "message"); reflexivity.
    + destruct (get_prop res "data"); reflexivity.
Qed.

(** The single call that [API.post] and [API.patch] of the plain design
    make. *)
Lemma post_call (ax : Transport) (apiPath : string) (data config : value) (w : World) :
  network (PlainApi.post ax apiPath data config w).2 =
    (network w ++ [AxPost (PlainApi.getUrl (api_config w) apiPath) data
                     (VObj (PlainApi.addGlobalConfig (api_config w) config))])%list.
Proof.
  unfold PlainApi.post, PlainApi.read_config, bind, axios_do.
  cbn -[PlainApi.responseHandler PlainApi.addGlobalConfig PlainApi.getUrl].
  destruct (ax (network w) _) as [response | e]; [| reflexivity].
  rewrite responseHandler_network. reflexivity.
Qed.

(** C7: in the plain design [API.patch] is [API.post]: the two give the same
    result and the same world, and the one call they make goes out with the
    POST method; in the schema-validated design the call that
    [patchRequest] makes for a valid payload goes out with the PATCH
    method. *)
Theorem patch_is_post (ax : Transport) (apiPath : string) (data config : value) (w : World) :
  PlainApi.patch ax apiPath data config w = PlainApi.post ax apiPath data config w
  ∧ (∃ call, network (PlainApi.patch ax apiPath data config w).2 = (network w ++ [call])%list
             ∧ http_method call = VStr "post")
  ∧ ∀ (wconfig : ValidatedApi.WriteConfig) (validated : value),
      ValidatedApi.safeParse (ValidatedApi.RequestPayloadSchema wconfig) data
        = ValidatedApi.SafeParseSuccess validated →
      ∃ call, network (ValidatedApi.patchRequest ax wconfig data w).2
                = (network w ++ [call])%list
              ∧ http_method call = VStr "patch".
Proof.
  split; [reflexivity | split].
  - change (PlainApi.patch ax apiPath data config w) with (PlainApi.post ax apiPath data config w).
    eexists. split; [apply post_call | reflexivity].
  - intros wconfig validated H. run_request.
    rewrite (createSchemaValidator_success _ _ _ H).
    exists (AxRequest (ValidatedApi.write_extendedConfig "patch" wconfig validated)).
    split.
    + destruct (ax (network w) _) as [response | e]; reflexivity.
    + cbn. unfold prop, ValidatedApi.write_extendedConfig. rewrite lookup_insert_eq. reflexivity.
Qed.

(** A valid number patched through the schema-validated design goes out as
    one PATCH request. *)
Lemma patch_is_post_witness :
  ∃ call,
    network (ValidatedApi.patchRequest (server_replying VNull) number_write_config (VNum 3)
               svc_world).2 = [call]
    ∧ http_method call = VStr "patch".
Proof.
  exact (proj2 (proj2 (patch_is_post (server_replying VNull) "/items" (VNum 3) VUndefined svc_world))
           number_write_config (VNum 3) eq_refl).
Defined.

(** A read that is answered with a body the response schema accepts. *)
Lemma read_accepted (ax : Transport) (call : axios_call) (S : ValidatedApi.ZodType)
    (response : AxiosResponse) (parsed : value) (w : World) :
  ax (network w) call = Ok response →
  ValidatedApi.safeParse S (data response) = ValidatedApi.SafeParseSuccess parsed →
  (bind (axios_do ax call)
     (λ r, lift (ValidatedApi.createSchemaValidator S (response_data r))) w).1 = Ok parsed.
Proof.
  intros Hax Hparse. unfold bind, axios_do, lift, response_data. rewrite Hax.
  rewrite (createSchemaValidator_success _ _ _ Hparse). reflexivity.
Qed.

(** A write whose payload is valid and that is answered with a body the
    response schema accepts. *)
Lemma write_accepted (ax : Transport) (method : string) (config : ValidatedApi.WriteConfig)
    (d validated : value) (response : AxiosResponse) (parsed : value) (w : World) :
  ValidatedApi.safeParse (ValidatedApi.RequestPayloadSchema config) d
    = ValidatedApi.SafeParseSuccess validated →
  ax (network w) (AxRequest (ValidatedApi.write_extendedConfig method config validated))
    = Ok response →
  ValidatedApi.safeParse (ValidatedApi.ResponseDataSchema config) (data response)
    = ValidatedApi.SafeParseSuccess parsed →
  (bind (lift (ValidatedApi.createSchemaValidator (ValidatedApi.RequestPayloadSchema config) d))
     (λ v, bind (axios_do ax (AxRequest (ValidatedApi.write_extendedConfig method config v)))
             (λ r, lift (ValidatedApi.createSchemaValidator
                           (ValidatedApi.ResponseDataSchema config) (response_data r)))) w).1
  = Ok parsed.
Proof.
  intros Hreq Hax Hparse. unfold bind at 1. unfold lift at 1.
  rewrite (createSchemaValidator_success _ _ _ Hreq).
  apply (read_accepted _ _ _ _ _ _ Hax Hparse).
Qed.

(** C10: in the schema-validated design the envelope code is never looked
    at: whenever the transport resolves with a body that the bound response
    schema accepts (and, for the writes, the payload was valid), [get],
    [delete], [post], [put] and [patch] succeed with the schema's parse of
    that body, whatever code the body carries. *)
Theorem validated_ignores_envelope_code (ax : Transport) (w : World)
    (response : AxiosResponse) (parsed : value) :
  (∀ config,
     ax (network w) (AxRequest (ValidatedApi.read_extendedConfig "get" config)) = Ok response →
     ValidatedApi.safeParse (ValidatedApi.read_ResponseDataSchema config) (data response)
       = ValidatedApi.SafeParseSuccess parsed →
     (ValidatedApi.getRequest ax config w).1 = Ok parsed)
  ∧ (∀ config,
     ax (network w) (AxRequest (ValidatedApi.read_extendedConfig "delete" config)) = Ok response →
     ValidatedApi.safeParse (ValidatedApi.read_ResponseDataSchema config) (data response)
       = ValidatedApi.SafeParseSuccess parsed →
     (ValidatedApi.deleteRequest ax config w).1 = Ok parsed)
  ∧ (∀ config d validated,
     ValidatedApi.safeParse (ValidatedApi.RequestPayloadSchema config) d
       = ValidatedApi.SafeParseSuccess validated →
     ValidatedApi.safeParse (ValidatedApi.ResponseDataSchema config) (data response)
       = ValidatedApi.SafeParseSuccess parsed →
     (ax (network w) (AxRequest (ValidatedApi.write_extendedConfig "post" config validated))
        = Ok response →
      (ValidatedApi.postRequest ax config d w).1 = Ok parsed)
     ∧ (ax (network w) (AxRequest (ValidatedApi.write_extendedConfig "put" config validated))
          = Ok response →
        (ValidatedApi.putRequest ax config d w).1 = Ok parsed)
     ∧ (ax (network w) (AxRequest (ValidatedApi.write_extendedConfig "patch" config validated))
          = Ok response →
        (ValidatedApi.patchRequest ax config d w).1 = Ok parsed)).
Proof.
  split; [| split].
  - intros config Hax Hparse. apply (read_accepted _ _ _ _ _ _ Hax Hparse).
  - intros config Hax Hparse. apply (read_accepted _ _ _ _ _ _ Hax Hparse).
  - intros config d validated Hreq Hparse. repeat split; intros Hax;
      apply (write_accepted _ _ _ _ _ _ _ _ Hreq Hax Hparse).
Qed.

(** A body [{code: 500, message: "boom"}] that the response schema accepts
    comes back as a success from the schema-validated [get] and [post],
    while the plain [get] rejects the same answer with a protocol error. *)
Lemma validated_ignores_envelope_code_witness :
  (ValidatedApi.getRequest (server_replying (VObj envelope_boom)) any_read_config svc_world).1
    = Ok (VObj envelope_boom)
  ∧ (ValidatedApi.postRequest (server_replying (VObj envelope_boom)) number_write_config (VNum 3)
       svc_world).1 = Ok (VObj envelope_boom)
  ∧ (PlainApi.get (server_replying (VObj envelope_boom)) "/items/1" VUndefined svc_world).1
    = Throw (ProtocolError (VNum 500) (VStr "boom")).
Proof.
  pose proof (validated_ignores_envelope_code (server_replying (VObj envelope_boom)) svc_world
                {| data := VObj envelope_boom |} (VObj envelope_boom)) as (Hget & _ & Hwrite).
  split; [| split].
  - apply Hget; reflexivity.
  - apply (proj1 (Hwrite number_write_config (VNum 3) (VNum 3) eq_refl eq_refl)). reflexivity.
  - reflexivity.
Defined.

(** ** The end-to-end scenario of the specification *)

(** With [rootPath = "https://svc"], [get("/items/1")] against a server that
    answers [{code: 200, data: {id: 1, name: "a"}}] yields the data and
    makes one GET call on the resolved URL. *)
Example get_item_ok :
  PlainApi.get
    (server_replying
       (VObj (<["code" := VNum 200]>
                {["data" := VObj (<["id" := VNum 1]> {["name" := VStr "a"]})]})))
    "/items/1" VUndefined svc_world
  = (Ok (VObj (<["id" := VNum 1]> {["name" := VStr "a"]})),
     {| api_config := default_config "https://svc";
        console := [];
        network := [AxGet "https://svc/items/1"
                      (VObj (<["headers" := VObj {["X-ENCRYPTED" := VStr "no"]}]>
                               {["withCredentials" := VBool true]}))] |}).
Proof. reflexivity. Qed.

(** Against a server that answers [{code: 500, message: "err"}] the same
    call rejects with [{code: 500, message: "err"}] and writes one console
    line. *)
Example get_item_error :
  (PlainApi.get (server_replying (VObj (<["code" := VNum 500]> {["message" := VStr "err"]})))
     "/items/1" VUndefined svc_world).1
    = Throw (ProtocolError (VNum 500) (VStr "err"))
  ∧ console (PlainApi.get
               (server_replying (VObj (<["code" := VNum 500]> {["message" := VStr "err"]})))
               "/items/1" VUndefined svc_world).2
    = [[VNum 500; VStr "err"]].
Proof. split; reflexivity. Qed.

(** ** Further properties of the envelope unwrapper *)

(** X1: a body that is neither an object nor [null] nor [undefined] (a
    string such as the empty body, a number, a boolean, an array) has no
    [code] and no [data], so the unwrapper returns [true] for it and leaves
    the world as it was. *)
Theorem responseHandler_primitive_body (res : value) (w : World) :
  res ≠ VUndefined → res ≠ VNull → (∀ e, res ≠ VObj e) →
  PlainApi.responseHandler res w = (Ok (VBool true), w).
Proof.
  intros Hu Hn Ho. destruct res; try reflexivity; try congruence.
Qed.

Lemma responseHandler_primitive_body_witness :
  PlainApi.responseHandler (VStr "") svc_world = (Ok (VBool true), svc_world).
Proof.
  apply responseHandler_primitive_body; [discriminate | discriminate |].
  intros e. discriminate.
Defined.

(** X2: on an envelope object the unwrapper succeeds exactly when [code] is
    [undefined] or the number 200; any other code, also the string ["200"]
    or [null], makes it fail. *)
Theorem responseHandler_succeeds_iff (e : gmap string value) (w : World) :
  (∃ payload, (PlainApi.responseHandler (VObj e) w).1 = Ok payload)
  ↔ prop e "code" = VUndefined ∨ prop e "code" = VNum 200.
Proof.
  rewrite responseHandler_object.
  destruct (strict_equals (prop e "code") (VNum 500)) eqn:E5.
  - apply strict_equals_num in E5. rewrite E5. split.
    + intros [payload H]. discriminate H.
    + intros [H | H]; discriminate H.
  - destruct (strict_equals (prop e "code") VUndefined) eqn:Eu.
    + apply strict_equals_undefined in Eu. cbn. split; [tauto | eauto].
    + destruct (strict_equals (prop e "code") (VNum 200)) eqn:E2; cbn.
      * apply strict_equals_num in E2. split; [tauto | eauto].
      * apply strict_equals_undefined_false in Eu. apply strict_equals_num_false in E2.
        split; [intros [payload H]; discriminate H | tauto].
Qed.

(** A code that is the string ["200"] is a failure. *)
Example responseHandler_string_code :
  PlainApi.responseHandler (VObj {["code" := VStr "200"]}) svc_world
  = (Throw (ProtocolError (VStr "200") VUndefined), svc_world).
Proof. reflexivity. Qed.

(** ** The operations of the plain design *)

Lemma responseHandler_api_config (res : value) (w : World) :
  api_config (PlainApi.responseHandler res w).2 = api_config w.
Proof.
  unfold PlainApi.responseHandler, bind, lift, ret, throw, console_error.
  destruct (get_prop res "code") as [code |]; [| reflexivity].
  destruct (strict_equals code (VNum 500)).
  - destruct (get_prop res "message"); reflexivity.
  - destruct (negb _ && negb _).
    + destruct (get_prop res "message"); reflexivity.
    + destruct (get_prop res "data"); reflexivity.
Qed.

(** Every unwrapping operation is one call followed by the unwrapper. *)
Lemma run_plain_unfold (ax : Transport) (op : plain_op) (apiPath : string)
    (data config : value) (w : World) :
  run_plain ax op apiPath data config w =
    bind (axios_do ax (plain_call op (PlainApi.getUrl (api_config w) apiPath) data
                         (VObj (PlainApi.addGlobalConfig (api_config w) config))))
      (λ response, PlainApi.responseHandler (response_data response)) w.
Proof. destruct op; reflexivity. Qed.

(** X3: with no hook configured, [get], [post], [put], [patch] and
    [delete] make exactly one call, whether it resolves or rejects and
    whatever the unwrapper then does: the call of their axios method on the
    resolved URL with the resolved configuration; and they leave the
    process-wide configuration alone. *)
Theorem plain_single_call (ax : Transport) (op : plain_op) (apiPath : string)
    (data config : value) (w : World) :
  no_hooks (api_config w) →
  network (run_plain ax op apiPath data config w).2
    = (network w ++ [plain_call op (PlainApi.getUrl (api_config w) apiPath) data
                       (VObj (PlainApi.addGlobalConfig (api_config w) config))])%list
  ∧ api_config (run_plain ax op apiPath data config w).2 = api_config w.
Proof.
  intros _. rewrite run_plain_unfold. unfold bind, axios_do.
  destruct (ax (network w) _) as [response | e]; [| split; reflexivity].
  rewrite responseHandler_network, responseHandler_api_config. split; reflexivity.
Qed.

Lemma plain_single_call_witness :
  network (PlainApi.put (server_replying (VObj envelope_not_found)) "items/1" (VNum 1)
             VUndefined svc_world).2
  = [AxPut "https://svc/items/1" (VNum 1)
       (VObj (PlainApi.addGlobalConfig (default_config "https://svc") VUndefined))].
Proof.
  exact (proj1 (plain_single_call (server_replying (VObj envelope_not_found)) PlainPut
                  "items/1" (VNum 1) VUndefined svc_world
                  (conj eq_refl (conj eq_refl eq_refl)))).
Defined.

(** X4: with no hook configured, when the transport rejects, every
    operation of the plain design rejects with the same error: the
    unwrapper is not run and nothing is logged. *)
Theorem plain_transport_rejection (ax : Transport) (apiPath : string) (data config : value)
    (w : World) (e : error) :
  no_hooks (api_config w) →
  (∀ op,
     ax (network w) (plain_call op (PlainApi.getUrl (api_config w) apiPath) data
                       (VObj (PlainApi.addGlobalConfig (api_config w) config))) = Throw e →
     run_plain ax op apiPath data config w
       = (Throw e, after_call w (plain_call op (PlainApi.getUrl (api_config w) apiPath) data
                                   (VObj (PlainApi.addGlobalConfig (api_config w) config)))))
  ∧ (ax (network w) (AxPost (PlainApi.getUrl (api_config w) apiPath) data
                       (VObj (PlainApi.addGlobalConfig (api_config w) config))) = Throw e →
     PlainApi.postRaw ax apiPath data config w
       = (Throw e, after_call w (AxPost (PlainApi.getUrl (api_config w) apiPath) data
                                   (VObj (PlainApi.addGlobalConfig (api_config w) config)))))
  ∧ (∀ tr tresp,
     ax (network w) (AxPost (PlainApi.getUrl (api_config w) apiPath) data
                       (VObj (PlainApi.postTransformed_config tr tresp config))) = Throw e →
     PlainApi.postTransformed ax apiPath data tr tresp config w
       = (Throw e, after_call w (AxPost (PlainApi.getUrl (api_config w) apiPath) data
                                   (VObj (PlainApi.postTransformed_config tr tresp config))))).
Proof.
  intros _. split; [| split].
  - intros op H. rewrite run_plain_unfold. unfold bind, axios_do. rewrite H. reflexivity.
  - intros H. unfold PlainApi.postRaw, PlainApi.read_config, bind, axios_do. cbn [fst snd].
    rewrite H. reflexivity.
  - intros tr tresp H.
    unfold PlainApi.postTransformed, PlainApi.read_config, bind, axios_do. cbn [fst snd].
    rewrite H. reflexivity.
Qed.

Lemma plain_transport_rejection_witness :
  PlainApi.delete (server_rejecting (TransportError (VStr "offline"))) "/items/1" VUndefined
    svc_world
  = (Throw (TransportError (VStr "offline")),
     after_call svc_world
       (AxDelete "https://svc/items/1"
          (VObj (PlainApi.addGlobalConfig (default_config "https://svc") VUndefined)))).
Proof.
  exact (proj1 (plain_transport_rejection (server_rejecting (TransportError (VStr "offline")))
                  "/items/1" VUndefined VUndefined svc_world (TransportError (VStr "offline"))
                  (conj eq_refl (conj eq_refl eq_refl)))
           PlainDelete eq_refl).
Defined.

(** X5: with no hook configured, when the transport resolves with a body
    that is [null] or [undefined], every unwrapping operation rejects with a
    [TypeError] (reading [code] fails), after the call has gone out and
    without a log line. *)
Theorem plain_null_body (ax : Transport) (op : plain_op) (apiPath : string)
    (data config : value) (w : World) (response : AxiosResponse) :
  no_hooks (api_config w) →
  ax (network w) (plain_call op (PlainApi.getUrl (api_config w) apiPath) data
                    (VObj (PlainApi.addGlobalConfig (api_config w) config))) = Ok response →
  response_data response = VNull ∨ response_data response = VUndefined →
  run_plain ax op apiPath data config w
    = (Throw TypeError,
       after_call w (plain_call op (PlainApi.getUrl (api_config w) apiPath) data
                       (VObj (PlainApi.addGlobalConfig (api_config w) config)))).
Proof.
  intros _ Hax Hbody. rewrite run_plain_unfold. unfold bind at 1. unfold axios_do. rewrite Hax.
  destruct Hbody as [-> | ->]; reflexivity.
Qed.

Lemma plain_null_body_witness :
  PlainApi.get (server_replying VNull) "/items/1" VUndefined svc_world
  = (Throw TypeError,
     after_call svc_world
       (AxGet "https://svc/items/1"
          (VObj (PlainApi.addGlobalConfig (default_config "https://svc") VUndefined)))).
Proof.
  apply (plain_null_body (server_replying VNull) PlainGet "/items/1" VUndefined VUndefined
           svc_world {| data := VNull |} (conj eq_refl (conj eq_refl eq_refl)) eq_refl).
  left. reflexivity.
Defined.


(** X6: [post] is [postRaw] followed by the unwrapper on the body; and with
    no hook configured [postRaw] hands back the response of the transport
    untouched, with no unwrapping and no log line whatever code the body
    carries. *)
Theorem postRaw_then_unwrap (ax : Transport) (apiPath : string) (data config : value)
    (w : World) :
  PlainApi.post ax apiPath data config w
    = bind (PlainApi.postRaw ax apiPath data config)
        (λ response, PlainApi.responseHandler (response_data response)) w
  ∧ ∀ response,
      no_hooks (api_config w) →
      ax (network w) (AxPost (PlainApi.getUrl (api_config w) apiPath) data
                        (VObj (PlainApi.addGlobalConfig (api_config w) config))) = Ok response →
      PlainApi.postRaw ax apiPath data config w
        = (Ok response,
           after_call w (AxPost (PlainApi.getUrl (api_config w) apiPath) data
                           (VObj (PlainApi.addGlobalConfig (api_config w) config)))).
Proof.
  split.
  - unfold PlainApi.post, PlainApi.postRaw, PlainApi.read_config, bind, axios_do.
    cbn [fst snd]. destruct (ax (network w) _); reflexivity.
  - intros response _ H. unfold PlainApi.postRaw, PlainApi.read_config, bind, axios_do.
    cbn [fst snd]. rewrite H. reflexivity.
Qed.

Lemma postRaw_then_unwrap_witness :
  PlainApi.postRaw (server_replying (VObj envelope_boom)) "/items" (VNum 1) VUndefined svc_world
  = (Ok {| data := VObj envelope_boom |},
     after_call svc_world
       (AxPost "https://svc/items" (VNum 1)
          (VObj (PlainApi.addGlobalConfig (default_config "https://svc") VUndefined)))).
Proof.
  exact (proj2 (postRaw_then_unwrap (server_replying (VObj envelope_boom)) "/items" (VNum 1)
                  VUndefined svc_world) {| data := VObj envelope_boom |}
           (conj eq_refl (conj eq_refl eq_refl)) eq_refl).
Defined.

(** X7: [configure] replaces the process-wide configuration wholesale: of
    two calls the last one wins, the console and the network are not
    touched, and an operation that follows resolves its URL and its
    configuration from the new configuration only. *)
Theorem configure_last_writer (c1 c2 : ApiConfig) (w : World) :
  bind (configure c1) (λ _, configure c2) w = configure c2 w
  ∧ console (configure c2 w).2 = console w
  ∧ network (configure c2 w).2 = network w
  ∧ ∀ ax op apiPath data config,
      network (bind (configure c2) (λ _, run_plain ax op apiPath data config) w).2
        = (network w ++ [plain_call op (PlainApi.getUrl c2 apiPath) data
                           (VObj (PlainApi.addGlobalConfig c2 config))])%list.
Proof.
  split; [reflexivity | split; [reflexivity | split; [reflexivity |]]].
  intros ax op apiPath data config. unfold bind at 1. unfold configure at 1.
  rewrite run_plain_unfold. unfold bind, axios_do. cbn [api_config network].
  destruct (ax (network w) _) as [response | e]; [| reflexivity].
  rewrite responseHandler_network. reflexivity.
Qed.

(** ** Further properties of configuration injection *)

(** X8: the headers that a caller supplies as an object reach the resolved
    configuration unchanged, except [X-ENCRYPTED]; and when the caller
    supplies no headers (or a falsy value), [X-ENCRYPTED] is the only
    header. *)
Theorem addGlobalConfig_caller_headers (c : ApiConfig) (config : gmap string value) :
  (∀ h name,
     config !! "headers" = Some (VObj h) → name ≠ "X-ENCRYPTED" →
     header (VObj (PlainApi.addGlobalConfig c (VObj config))) name = prop h name)
  ∧ (truthy (prop config "headers") = false →
     PlainApi.addGlobalConfig c (VObj config) !! "headers"
       = Some (VObj {["X-ENCRYPTED" :=
                        VStr (if PlainApi.present_non_empty (transformRequest c)
                              then "yes" else "no")]})).
Proof.
  split.
  - intros h name Hh Hname. unfold header. cbn [get_prop_opt]. unfold prop.
    rewrite addGlobalConfig_headers. cbn [default from_option id get_prop_opt].
    unfold prop. rewrite Hh. unfold logical_or.
    cbn [default from_option id truthy own_props].
    rewrite lookup_insert_ne by congruence. reflexivity.
  - intros Hfalsy. rewrite addGlobalConfig_headers. cbn [get_prop_opt].
    unfold logical_or. rewrite Hfalsy. cbn [own_props]. rewrite insert_empty. reflexivity.
Qed.

Lemma addGlobalConfig_caller_headers_witness :
  header (VObj (PlainApi.addGlobalConfig (default_config "https://svc")
                  (VObj {["headers" := VObj {["Accept" := VStr "text/plain"]}]})))
    "Accept" = VStr "text/plain"
  ∧ PlainApi.addGlobalConfig (default_config "https://svc") (VObj {["timeout" := VNum 5]})
      !! "headers" = Some (VObj {["X-ENCRYPTED" := VStr "no"]}).
Proof.
  split.
  - etransitivity;
      [apply (proj1 (addGlobalConfig_caller_headers (default_config "https://svc")
                       {["headers" := VObj {["Accept" := VStr "text/plain"]}]})
                {["Accept" := VStr "text/plain"]} "Accept"); [reflexivity | discriminate]
      | reflexivity].
  - apply (proj2 (addGlobalConfig_caller_headers (default_config "https://svc")
                    {["timeout" := VNum 5]})). reflexivity.
Defined.

(** X9: every property of the per-call configuration other than [headers]
    and [withCredentials] reaches the resolved configuration unchanged; in
    particular a per-call [transformRequest] replaces the process-wide
    one. *)
Theorem addGlobalConfig_passthrough (c : ApiConfig) (config : gmap string value)
    (k : string) (v : value) :
  k ≠ "headers" → k ≠ "withCredentials" → config !! k = Some v →
  PlainApi.addGlobalConfig c (VObj config) !! k = Some v.
Proof.
  intros Hh Hw Hk. unfold PlainApi.addGlobalConfig, spread. cbn [own_props].
  rewrite !lookup_insert_ne by congruence.
  apply lookup_union_Some_l, Hk.
Qed.

Lemma addGlobalConfig_passthrough_witness :
  PlainApi.addGlobalConfig hooked_config (VObj {["transformRequest" := VArr [VFun "mine"]]})
    !! "transformRequest" = Some (VArr [VFun "mine"]).
Proof.
  apply addGlobalConfig_passthrough; [discriminate | discriminate | reflexivity].
Defined.

(** X10: when the per-call configuration has no transform list of its own,
    the resolved configuration carries the process-wide list if that is
    present and non-empty, and has no such property at all if it is absent
    or empty; the same for requests and for responses. *)
Theorem addGlobalConfig_transformers (c : ApiConfig) (config : value) :
  (own_props config !! "transformRequest" = None →
     (∀ l, transformRequest c = Some l → l ≠ [] →
        PlainApi.addGlobalConfig c config !! "transformRequest" = Some (VArr l))
     ∧ (transformRequest c = None ∨ transformRequest c = Some [] →
        PlainApi.addGlobalConfig c config !! "transformRequest" = None))
  ∧ (own_props config !! "transformResponse" = None →
     (∀ l, transformResponse c = Some l → l ≠ [] →
        PlainApi.addGlobalConfig c config !! "transformResponse" = Some (VArr l))
     ∧ (transformResponse c = None ∨ transformResponse c = Some [] →
        PlainApi.addGlobalConfig c config !! "transformResponse" = None)).
Proof.
  unfold PlainApi.addGlobalConfig, spread.
  split; intros Hnone; (split; [intros l Hl Hne | intros Hempty]);
    rewrite !lookup_insert_ne by discriminate;
    rewrite lookup_union_r by exact Hnone.
  - rewrite Hl. destruct l as [| x l]; [congruence |]. cbn [PlainApi.present_non_empty].
    rewrite bool_decide_eq_true_2 by (cbn; lia).
    destruct (PlainApi.present_non_empty (transformResponse c)).
    + rewrite lookup_union_r by (apply lookup_singleton_ne; discriminate).
      apply lookup_singleton_eq.
    + rewrite lookup_union_r by apply lookup_empty. apply lookup_singleton_eq.
  - assert (PlainApi.present_non_empty (transformRequest c) = false) as ->.
    { destruct Hempty as [-> | ->]; reflexivity. }
    destruct (PlainApi.present_non_empty (transformResponse c)).
    + rewrite lookup_union_l by apply lookup_empty.
      apply lookup_singleton_ne. discriminate.
    + rewrite lookup_union_l by apply lookup_empty. apply lookup_empty.
  - rewrite Hl. destruct l as [| x l]; [congruence |]. cbn [PlainApi.present_non_empty].
    rewrite bool_decide_eq_true_2 by (cbn; lia).
    apply lookup_union_Some_l, lookup_singleton_eq.
  - assert (PlainApi.present_non_empty (transformResponse c) = false) as ->.
    { destruct Hempty as [-> | ->]; reflexivity. }
    rewrite lookup_union_r by apply lookup_empty.
    destruct (PlainApi.present_non_empty (transformRequest c)).
    + apply lookup_singleton_ne. discriminate.
    + apply lookup_empty.
Qed.

Lemma addGlobalConfig_transformers_witness :
  PlainApi.addGlobalConfig hooked_config VUndefined !! "transformRequest"
    = Some (VArr [VFun "encrypt"])
  ∧ PlainApi.addGlobalConfig hooked_config VUndefined !! "transformResponse" = None.
Proof.
  split.
  - apply (proj1 (proj1 (addGlobalConfig_transformers hooked_config VUndefined) eq_refl));
      [reflexivity | discriminate].
  - apply (proj2 (proj2 (addGlobalConfig_transformers hooked_config VUndefined) eq_refl)).
    right. reflexivity.
Defined.

(** X11: the configuration that [postTransformed] sends has one-element
    transform lists holding the given functions, or the plain transformers
    where [undefined] or [null] is given, also when the per-call
    configuration brings transform lists of its own; every other property
    of the per-call configuration except [headers] and [withCredentials],
    and every caller header except [X-ENCRYPTED], passes through. *)
Theorem postTransformed_config_shape (tr tresp : value) (config : gmap string value) :
  PlainApi.postTransformed_config tr tresp (VObj config) !! "transformRequest"
    = Some (VArr [match tr with
                  | VUndefined | VNull => VFun "plainRequestTransformer"
                  | _ => tr
                  end])
  ∧ PlainApi.postTransformed_config tr tresp (VObj config) !! "transformResponse"
    = Some (VArr [match tresp with
                  | VUndefined | VNull => VFun "plainResponseTransformer"
                  | _ => tresp
                  end])
  ∧ (∀ k v,
       k ≠ "headers" → k ≠ "withCredentials" →
       k ≠ "transformRequest" → k ≠ "transformResponse" →
       config !! k = Some v →
       PlainApi.postTransformed_config tr tresp (VObj config) !! k = Some v)
  ∧ (∀ h name,
       config !! "headers" = Some (VObj h) → name ≠ "X-ENCRYPTED" →
       header (VObj (PlainApi.postTransformed_config tr tresp (VObj config))) name = prop h name).
Proof.
  unfold PlainApi.postTransformed_config. repeat split.
  - rewrite lookup_insert_ne by discriminate. rewrite lookup_insert_ne by discriminate.
    rewrite lookup_insert_eq. destruct tr; reflexivity.
  - rewrite lookup_insert_ne by discriminate. rewrite lookup_insert_eq.
    destruct tresp; reflexivity.
  - intros k v H1 H2 H3 H4 Hk. rewrite !lookup_insert_ne by congruence. exact Hk.
  - intros h name Hh Hname. unfold header. cbn [get_prop_opt]. unfold prop.
    rewrite !lookup_insert_ne by discriminate. rewrite lookup_insert_eq.
    cbn [default from_option id get_prop_opt]. unfold prop. rewrite Hh.
    cbn [default from_option id own_props].
    rewrite lookup_insert_ne by congruence. reflexivity.
Qed.

Lemma postTransformed_config_shape_witness :
  PlainApi.postTransformed_config VUndefined (VFun "decrypt")
    (VObj (<["timeout" := VNum 5]> {["transformRequest" := VArr [VFun "mine"]]}))
    !! "timeout" = Some (VNum 5).
Proof.
  apply (proj1 (proj2 (proj2 (postTransformed_config_shape VUndefined (VFun "decrypt")
                                (<["timeout" := VNum 5]>
                                   {["transformRequest" := VArr [VFun "mine"]]})))));
    [discriminate | discriminate | discriminate | discriminate | reflexivity].
Defined.

(** ** The interceptors *)

(** X12: the two rejection interceptors never turn a failure into a
    success, whatever the configured hooks do: they always reject. *)
Theorem rejected_never_succeed (call : string → list value → M value) (e : error)
    (w : World) (v : value) :
  (Interceptors.requestRejected call e w).1 ≠ Ok v
  ∧ (Interceptors.responseRejected call e w).1 ≠ Ok v.
Proof.
  unfold Interceptors.requestRejected, Interceptors.responseRejected,
    PlainApi.read_config, bind, throw.
  split.
  - destruct (Interceptors.optional_call call (preProcessingCallback (api_config w)) [] w)
      as [[r1 | e1] w1]; [| discriminate].
    destruct (Interceptors.optional_call call (apiErrorHandler (api_config w1)) [] w1)
      as [[r2 | e2] w2]; discriminate.
  - destruct (Interceptors.optional_call call (postProcessingCallback (api_config w)) [] w)
      as [[r1 | e1] w1]; [| discriminate].
    destruct (Interceptors.optional_call call (apiErrorHandler (api_config w1)) [] w1)
      as [[r2 | e2] w2]; discriminate.
Qed.

(** X13: with no hook configured the interceptors are transparent: the
    request configuration and the response pass through unchanged, a
    failure is rejected again as it is, and the world is not touched. *)
Theorem interceptors_without_hooks (call : string → list value → M value) (w : World) :
  (preProcessingCallback (api_config w) = None →
     ∀ config, Interceptors.requestFulfilled call config w = (Ok config, w))
  ∧ (postProcessingCallback (api_config w) = None →
     ∀ response rest, Interceptors.responseFulfilled call response rest w = (Ok response, w))
  ∧ (apiErrorHandler (api_config w) = None →
     (preProcessingCallback (api_config w) = None →
        ∀ e, Interceptors.requestRejected call e w = (Throw e, w))
     ∧ (postProcessingCallback (api_config w) = None →
        ∀ e, Interceptors.responseRejected call e w = (Throw e, w))).
Proof.
  unfold Interceptors.requestFulfilled, Interceptors.responseFulfilled,
    Interceptors.requestRejected, Interceptors.responseRejected,
    PlainApi.read_config, bind, ret, throw.
  split; [| split; [| intros He; split]].
  - intros Hp config. cbn. rewrite Hp. reflexivity.
  - intros Hp response rest. cbn. rewrite Hp. reflexivity.
  - intros Hp e. cbn. rewrite Hp. cbn. rewrite He. reflexivity.
  - intros Hp e. cbn. rewrite Hp. cbn. rewrite He. reflexivity.
Qed.

Lemma interceptors_without_hooks_witness :
  Interceptors.requestFulfilled sample_hooks (VObj {["url" := VStr "/a"]}) svc_world
    = (Ok (VObj {["url" := VStr "/a"]}), svc_world)
  ∧ Interceptors.responseRejected sample_hooks (TransportError (VStr "offline")) svc_world
    = (Throw (TransportError (VStr "offline")), svc_world).
Proof.
  split.
  - apply (proj1 (interceptors_without_hooks sample_hooks svc_world) eq_refl).
  - apply (proj2 (proj2 (proj2 (interceptors_without_hooks sample_hooks svc_world)) eq_refl)
             eq_refl).
Defined.

(** X14: what a hook returns matters only for the request: a request hook
    that returns a value other than [undefined] and [null] replaces the
    request configuration, one that returns [undefined] or [null] leaves it,
    and the return value of a response hook is discarded; a hook that
    throws makes the interceptor fail with the hook's error. *)
Theorem interceptors_hook_result (call : string → list value → M value) (w w' : World)
    (name : string) (config : value) :
  (preProcessingCallback (api_config w) = Some (VFun name) →
     (∀ returned,
        call name [config] w = (Ok returned, w') →
        Interceptors.requestFulfilled call config w
          = (Ok (match returned with VUndefined | VNull => config | _ => returned end), w'))
     ∧ (∀ e,
        call name [config] w = (Throw e, w') →
        Interceptors.requestFulfilled call config w = (Throw e, w')))
  ∧ (postProcessingCallback (api_config w) = Some (VFun name) →
     (∀ rest returned,
        call name [config; VArr rest] w = (Ok returned, w') →
        Interceptors.responseFulfilled call config rest w = (Ok config, w'))
     ∧ (∀ rest e,
        call name [config; VArr rest] w = (Throw e, w') →
        Interceptors.responseFulfilled call config rest w = (Throw e, w'))).
Proof.
  unfold Interceptors.requestFulfilled, Interceptors.responseFulfilled,
    PlainApi.read_config, bind, ret. cbn [fst snd].
  split; intros Hhook; rewrite Hhook; cbn [Interceptors.optional_call]; split.
  - intros returned H. rewrite H. destruct returned; reflexivity.
  - intros e H. rewrite H. reflexivity.
  - intros rest returned H. rewrite H. reflexivity.
  - intros rest e H. rewrite H. reflexivity.
Qed.

(** The [addAuth] hook replaces the request configuration; the [count] hook
    leaves the response alone and only writes its console line. *)
Lemma interceptors_hook_result_witness :
  Interceptors.requestFulfilled sample_hooks (VObj {["url" := VStr "/a"]}) hooked_world
    = (Ok (VObj (<["token" := VStr "t"]> {["url" := VStr "/a"]})), hooked_world)
  ∧ Interceptors.responseFulfilled sample_hooks (VObj {["status" := VNum 200]}) [] hooked_world
    = (Ok (VObj {["status" := VNum 200]}),
       {| api_config := hooked_config; console := [[VStr "hook"]]; network := [] |}).
Proof.
  split.
  - apply (proj1 (proj1 (interceptors_hook_result sample_hooks hooked_world hooked_world
                           "addAuth" (VObj {["url" := VStr "/a"]})) eq_refl)
             (VObj (<["token" := VStr "t"]> {["url" := VStr "/a"]}))).
    reflexivity.
  - apply (proj1 (proj2 (interceptors_hook_result sample_hooks hooked_world
                           {| api_config := hooked_config; console := [[VStr "hook"]];
                              network := [] |}
                           "count" (VObj {["status" := VNum 200]})) eq_refl) [] VUndefined).
    reflexivity.
Defined.

(** X15: the rejection interceptors run their observation hook first and
    the error handler second, the handler being the one configured once the
    first hook has run, and then reject with the original error; when the
    first hook throws, the handler is not run and the hook's error replaces
    the original one. *)
Theorem rejected_hook_order (call : string → list value → M value) (w w1 : World)
    (first : string) (e : error) :
  (preProcessingCallback (api_config w) = Some (VFun first) →
     (∀ r1 handler r2 w2,
        call first [] w = (Ok r1, w1) →
        apiErrorHandler (api_config w1) = Some (VFun handler) →
        call handler [] w1 = (Ok r2, w2) →
        Interceptors.requestRejected call e w = (Throw e, w2))
     ∧ (∀ e1,
        call first [] w = (Throw e1, w1) →
        Interceptors.requestRejected call e w = (Throw e1, w1)))
  ∧ (postProcessingCallback (api_config w) = Some (VFun first) →
     (∀ r1 handler r2 w2,
        call first [] w = (Ok r1, w1) →
        apiErrorHandler (api_config w1) = Some (VFun handler) →
        call handler [] w1 = (Ok r2, w2) →
        Interceptors.responseRejected call e w = (Throw e, w2))
     ∧ (∀ e1,
        call first [] w = (Throw e1, w1) →
        Interceptors.responseRejected call e w = (Throw e1, w1))).
Proof.
  unfold Interceptors.requestRejected, Interceptors.responseRejected,
    PlainApi.read_config, bind, throw. cbn [fst snd].
  split; intros Hhook; rewrite Hhook; cbn [Interceptors.optional_call]; split.
  - intros r1 handler r2 w2 H1 Hh H2. rewrite H1, Hh. cbn [Interceptors.optional_call].
    rewrite H2. reflexivity.
  - intros e1 H1. rewrite H1. reflexivity.
  - intros r1 handler r2 w2 H1 Hh H2. rewrite H1, Hh. cbn [Interceptors.optional_call].
    rewrite H2. reflexivity.
  - intros e1 H1. rewrite H1. reflexivity.
Qed.

(** With [count] as response hook and as error handler, a rejected response
    leaves two console lines and the original error. *)
Lemma rejected_hook_order_witness :
  Interceptors.responseRejected sample_hooks (TransportError (VStr "offline")) hooked_world
  = (Throw (TransportError (VStr "offline")),
     {| api_config := hooked_config;
        console := [[VStr "hook"]; [VStr "hook"]];
        network := [] |}).
Proof.
  apply (proj1 (proj2 (rejected_hook_order sample_hooks hooked_world
                         {| api_config := hooked_config; console := [[VStr "hook"]];
                            network := [] |}
                         "count" (TransportError (VStr "offline"))) eq_refl)
           VUndefined "count" VUndefined); reflexivity.
Defined.

(** ** Further properties of the schema-validated requests *)

Lemma API_read_unfold (ax : Transport) (op : read_op) (config : ValidatedApi.ReadConfig)
    (w : World) :
  API_read ax op config w =
    bind (axios_do ax (AxRequest (ValidatedApi.read_extendedConfig (read_method op) config)))
      (λ response,
         lift (ValidatedApi.createSchemaValidator (ValidatedApi.read_ResponseDataSchema config)
                 (response_data response))) w.
Proof. destruct op; reflexivity. Qed.

Lemma API_write_unfold (ax : Transport) (op : write_op) (config : ValidatedApi.WriteConfig)
    (d : value) (w : World) :
  API_write ax op config d w =
    bind (lift (ValidatedApi.createSchemaValidator (ValidatedApi.RequestPayloadSchema config) d))
      (λ validated,
         bind (axios_do ax (AxRequest (ValidatedApi.write_extendedConfig (write_method op)
                                         config validated)))
           (λ response,
              lift (ValidatedApi.createSchemaValidator (ValidatedApi.ResponseDataSchema config)
                      (response_data response)))) w.
Proof. destruct op; reflexivity. Qed.

(** X16: when the transport rejects, the schema-validated operations reject
    with the same error; the response is not validated. *)
Theorem validated_transport_rejection (ax : Transport) (w : World) (e : error) :
  (∀ op config,
     ax (network w) (AxRequest (ValidatedApi.read_extendedConfig (read_method op) config))
       = Throw e →
     (API_read ax op config w).1 = Throw e)
  ∧ (∀ op config d validated,
     ValidatedApi.safeParse (ValidatedApi.RequestPayloadSchema config) d
       = ValidatedApi.SafeParseSuccess validated →
     ax (network w) (AxRequest (ValidatedApi.write_extendedConfig (write_method op) config
                                  validated)) = Throw e →
     (API_write ax op config d w).1 = Throw e).
Proof.
  split.
  - intros op config H. rewrite API_read_unfold. unfold bind, axios_do. rewrite H. reflexivity.
  - intros op config d validated Hreq H. rewrite API_write_unfold.
    unfold bind, lift, axios_do. rewrite (createSchemaValidator_success _ _ _ Hreq), H.
    reflexivity.
Qed.

Lemma validated_transport_rejection_witness :
  (ValidatedApi.deleteRequest (server_rejecting (TransportError (VStr "offline")))
     any_read_config svc_world).1 = Throw (TransportError (VStr "offline"))
  ∧ (ValidatedApi.putRequest (server_rejecting (TransportError (VStr "offline")))
       number_write_config (VNum 3) svc_world).1 = Throw (TransportError (VStr "offline")).
Proof.
  pose proof (validated_transport_rejection (server_rejecting (TransportError (VStr "offline")))
                svc_world (TransportError (VStr "offline"))) as [Hread Hwrite].
  split.
  - exact (Hread ReadDelete any_read_config eq_refl).
  - exact (Hwrite WritePut number_write_config (VNum 3) (VNum 3) eq_refl eq_refl).
Defined.

(** X17: when the transport resolves with a body that the bound response
    schema rejects, the schema-validated operations fail with a validation
    error carrying the issues of that schema, although the call has gone
    out. *)
Theorem validated_malformed_response (ax : Transport) (w : World)
    (response : AxiosResponse) (issues : list ZodIssue) :
  (∀ op config,
     ax (network w) (AxRequest (ValidatedApi.read_extendedConfig (read_method op) config))
       = Ok response →
     ValidatedApi.safeParse (ValidatedApi.read_ResponseDataSchema config) (data response)
       = ValidatedApi.SafeParseError issues →
     API_read ax op config w
       = (Throw (ValidationError issues),
          after_call w (AxRequest (ValidatedApi.read_extendedConfig (read_method op) config))))
  ∧ (∀ op config d validated,
     ValidatedApi.safeParse (ValidatedApi.RequestPayloadSchema config) d
       = ValidatedApi.SafeParseSuccess validated →
     ax (network w) (AxRequest (ValidatedApi.write_extendedConfig (write_method op) config
                                  validated)) = Ok response →
     ValidatedApi.safeParse (ValidatedApi.ResponseDataSchema config) (data response)
       = ValidatedApi.SafeParseError issues →
     API_write ax op config d w
       = (Throw (ValidationError issues),
          after_call w (AxRequest (ValidatedApi.write_extendedConfig (write_method op) config
                                     validated)))).
Proof.
  split.
  - intros op config Hax Hresp. rewrite API_read_unfold.
    unfold bind, lift, axios_do, response_data.
    rewrite Hax, (createSchemaValidator_failure _ _ _ Hresp). reflexivity.
  - intros op config d validated Hreq Hax Hresp. rewrite API_write_unfold.
    unfold bind, lift, axios_do, response_data.
    rewrite (createSchemaValidator_success _ _ _ Hreq), Hax,
      (createSchemaValidator_failure _ _ _ Hresp). reflexivity.
Qed.

(** A text body where a number is expected is a validation error. *)
Lemma validated_malformed_response_witness :
  ValidatedApi.getRequest (server_replying (VStr "oops"))
    {| ValidatedApi.read_axios := {["url" := VStr "https://svc/count"]};
       ValidatedApi.read_ResponseDataSchema := schema_number |} svc_world
  = (Throw (ValidationError [{| path := []; message := "Expected number" |}]),
     after_call svc_world
       (AxRequest (<["method" := VStr "get"]>
                     (<["ResponseDataSchema" := VUndefined]>
                        {["url" := VStr "https://svc/count"]})))).
Proof.
  exact (proj1 (validated_malformed_response (server_replying (VStr "oops")) svc_world
                  {| data := VStr "oops" |} [{| path := []; message := "Expected number" |}])
           ReadGet
           {| ValidatedApi.read_axios := {["url" := VStr "https://svc/count"]};
              ValidatedApi.read_ResponseDataSchema := schema_number |} eq_refl eq_refl).
Defined.

(** X18: the request configuration that reaches the transport: the method
    is the operation's own, also when the caller's configuration names
    another; the two schema properties are [undefined]; a write carries the
    payload as the request schema parsed it, not as it was given; every
    other property of the caller's configuration is passed on unchanged. *)
Theorem validated_request_config (ax : Transport) (w : World) :
  (∀ op config,
     ∃ sent,
       network (API_read ax op config w).2 = (network w ++ [AxRequest sent])%list
       ∧ sent !! "method" = Some (VStr (read_method op))
       ∧ sent !! "ResponseDataSchema" = Some VUndefined
       ∧ ∀ k, k ≠ "method" → k ≠ "ResponseDataSchema" →
           sent !! k = ValidatedApi.read_axios config !! k)
  ∧ (∀ op config d validated,
     ValidatedApi.safeParse (ValidatedApi.RequestPayloadSchema config) d
       = ValidatedApi.SafeParseSuccess validated →
     ∃ sent,
       network (API_write ax op config d w).2 = (network w ++ [AxRequest sent])%list
       ∧ sent !! "method" = Some (VStr (write_method op))
       ∧ sent !! "data" = Some validated
       ∧ sent !! "ResponseDataSchema" = Some VUndefined
       ∧ sent !! "RequestPayloadSchema" = Some VUndefined
       ∧ ∀ k, k ≠ "method" → k ≠ "data" → k ≠ "ResponseDataSchema" →
           k ≠ "RequestPayloadSchema" →
           sent !! k = ValidatedApi.write_axios config !! k).
Proof.
  split.
  - intros op config.
    exists (ValidatedApi.read_extendedConfig (read_method op) config). split.
    { rewrite API_read_unfold. unfold bind, lift, axios_do.
      destruct (ax (network w) _); reflexivity. }
    unfold ValidatedApi.read_extendedConfig.
    split; [apply lookup_insert_eq |].
    split; [rewrite lookup_insert_ne by discriminate; apply lookup_insert_eq |].
    intros k H1 H2. rewrite !lookup_insert_ne by congruence. reflexivity.
  - intros op config d validated Hreq.
    exists (ValidatedApi.write_extendedConfig (write_method op) config validated). split.
    { rewrite API_write_unfold. unfold bind, lift, axios_do.
      rewrite (createSchemaValidator_success _ _ _ Hreq).
      destruct (ax (network w) _); reflexivity. }
    unfold ValidatedApi.write_extendedConfig.
    split; [apply lookup_insert_eq |].
    split; [rewrite lookup_insert_ne by discriminate; apply lookup_insert_eq |].
    split; [rewrite !lookup_insert_ne by discriminate; apply lookup_insert_eq |].
    split; [rewrite !lookup_insert_ne by discriminate; apply lookup_insert_eq |].
    intros k H1 H2 H3 H4. rewrite !lookup_insert_ne by congruence. reflexivity.
Qed.

(** A write through [postRequest] goes out as one request whose method is
    ["post"] and whose data is the parsed payload. *)
Lemma validated_request_config_witness :
  ∃ sent,
    network (ValidatedApi.postRequest (server_replying VNull) number_write_config (VNum 3)
               svc_world).2 = [AxRequest sent]
    ∧ sent !! "method" = Some (VStr "post")
    ∧ sent !! "data" = Some (VNum 3).
Proof.
  destruct (proj2 (validated_request_config (server_replying VNull) svc_world)
              WritePost number_write_config (VNum 3) (VNum 3) eq_refl)
    as (sent & Hnet & Hmethod & Hdata & _).
  exists sent. split; [exact Hnet | split; [exact Hmethod | exact Hdata]].
Defined.

(** A caller's own [method] does not survive: [getRequest] still sends a
    GET. *)
Example getRequest_overrides_method :
  network (ValidatedApi.getRequest (server_replying VNull)
             {| ValidatedApi.read_axios :=
                  <["method" := VStr "post"]> {["url" := VStr "https://svc/items"]};
                ValidatedApi.read_ResponseDataSchema := schema_any |} svc_world).2
  = [AxRequest (<["method" := VStr "get"]>
                  (<["ResponseDataSchema" := VUndefined]>
                     {["url" := VStr "https://svc/items"]}))].
Proof. reflexivity. Qed.

(** X19: a read of the schema-validated design changes the world by exactly
    one transport call, whatever the outcome; so does a write whose payload
    is valid.  Neither writes to the console nor touches the process-wide
    configuration. *)
Theorem validated_world (ax : Transport) (w : World) :
  (∀ op config,
     (API_read ax op config w).2
       = after_call w (AxRequest (ValidatedApi.read_extendedConfig (read_method op) config)))
  ∧ (∀ op config d validated,
     ValidatedApi.safeParse (ValidatedApi.RequestPayloadSchema config) d
       = ValidatedApi.SafeParseSuccess validated →
     (API_write ax op config d w).2
       = after_call w (AxRequest (ValidatedApi.write_extendedConfig (write_method op) config
                                    validated))).
Proof.
  split.
  - intros op config. rewrite API_read_unfold. unfold bind, lift, axios_do.
    destruct (ax (network w) _); reflexivity.
  - intros op config d validated Hreq. rewrite API_write_unfold.
    unfold bind, lift, axios_do. rewrite (createSchemaValidator_success _ _ _ Hreq).
    destruct (ax (network w) _); reflexivity.
Qed.

Lemma validated_world_witness :
  (ValidatedApi.patchRequest (server_rejecting SyntaxError) number_write_config (VNum 3)
     svc_world).2
  = after_call svc_world
      (AxRequest (ValidatedApi.write_extendedConfig "patch" number_write_config (VNum 3))).
Proof.
  exact (proj2 (validated_world (server_rejecting SyntaxError) svc_world)
           WritePatch number_write_config (VNum 3) (VNum 3) eq_refl).
Defined.

(** X20: a write of the schema-validated design succeeds with [parsed]
    exactly when the request schema accepts the payload, the transport
    resolves the call that carries the parsed payload, and the response
    schema parses the body to [parsed]; a read likewise, without the first
    condition. *)
Theorem validated_success_iff (ax : Transport) (w : World) (parsed : value) :
  (∀ op config,
     (API_read ax op config w).1 = Ok parsed
     ↔ ∃ response,
         ax (network w) (AxRequest (ValidatedApi.read_extendedConfig (read_method op) config))
           = Ok response
         ∧ ValidatedApi.safeParse (ValidatedApi.read_ResponseDataSchema config) (data response)
           = ValidatedApi.SafeParseSuccess parsed)
  ∧ (∀ op config d,
     (API_write ax op config d w).1 = Ok parsed
     ↔ ∃ validated response,
         ValidatedApi.safeParse (ValidatedApi.RequestPayloadSchema config) d
           = ValidatedApi.SafeParseSuccess validated
         ∧ ax (network w) (AxRequest (ValidatedApi.write_extendedConfig (write_method op) config
                                        validated)) = Ok response
         ∧ ValidatedApi.safeParse (ValidatedApi.ResponseDataSchema config) (data response)
           = ValidatedApi.SafeParseSuccess parsed).
Proof.
  split.
  - intros op config. rewrite API_read_unfold.
    unfold bind, lift, axios_do, response_data, ValidatedApi.createSchemaValidator.
    destruct (ax (network w) _) as [response | e]; cbn.
    + destruct (ValidatedApi.safeParse _ (data response)) as [p | issues] eqn:E; cbn.
      * split; [intros [= ->]; exists response; split; [reflexivity | exact E] |].
        intros (r & [= <-] & H). rewrite E in H. congruence.
      * split; [discriminate |]. intros (r & [= <-] & H). rewrite E in H. discriminate H.
    + split; [discriminate |]. intros (r & H & _). discriminate H.
  - intros op config d. rewrite API_write_unfold.
    unfold bind, lift, axios_do, response_data, ValidatedApi.createSchemaValidator.
    destruct (ValidatedApi.safeParse (ValidatedApi.RequestPayloadSchema config) d)
      as [validated | issues0]; cbn.
    + destruct (ax (network w) _) as [response | e] eqn:Eax; cbn.
      * destruct (ValidatedApi.safeParse _ (data response)) as [p | issues] eqn:E; cbn.
        -- split; [intros [= ->]; exists validated, response; auto |].
           intros (v & r & [= <-] & Hax & H). rewrite Eax in Hax.
           injection Hax as <-. rewrite E in H. congruence.
        -- split; [discriminate |].
           intros (v & r & [= <-] & Hax & H). rewrite Eax in Hax.
           injection Hax as <-. rewrite E in H. discriminate H.
      * split; [discriminate |].
        intros (v & r & [= <-] & Hax & _). rewrite Eax in Hax. discriminate Hax.
    + split; [discriminate |]. intros (v & r & H & _). discriminate H.
Qed.

(** ** The default decode on blank text *)

(** X21: a string payload that is empty or holds only white space is not
    JSON, so the default decode throws a syntax error on it. *)
Theorem plainResponseTransformer_blank (text : string) :
  Json.skip_ws text = "" →
  PlainApi.plainResponseTransformer (VStr text) = Throw SyntaxError.
Proof.
  intros H. cbn [PlainApi.plainResponseTransformer]. unfold Json.parse.
  replace (2 * String.length text + 2)%nat with (S (2 * String.length text + 1)) by lia.
  cbn [Json.parse_value]. rewrite H. reflexivity.
Qed.

Lemma plainResponseTransformer_blank_witness :
  PlainApi.plainResponseTransformer (VStr "") = Throw SyntaxError
  ∧ PlainApi.plainResponseTransformer (VStr "  ") = Throw SyntaxError.
Proof.
  split; apply plainResponseTransformer_blank; reflexivity.
Defined.
